(** * LoSiTo TEC operation: a shallow embedding of [losito/operations/tec.py]

    The development follows the Python source function by function.
    Python floats are IEEE binary64 values (Rocq's primitive [float]);
    Python exceptions are an explicit error type; the state the
    operation touches (the file system, the observation's
    [parset_parameters] dictionary and the log) is threaded through a
    small state-and-exception monad. *)

From Stdlib Require Import ZArith QArith Qabs.
From Corelib Require Import PrimFloat SpecFloat FloatOps.
From stdpp Require Import gmap strings list fin_maps.

Set Warnings "-inexact-float".

Set Default Proof Using "Type".
#[local] Open Scope Z_scope.

(** ** Python: exceptions, results, loops, number conversion *)
Module Py.

(** The exceptions the operation can meet. *)
Inductive exn : Type :=
| IndexError
| ValueError
| OverflowError
| ZeroDivisionError
| AttributeError
| NameError (name : string)
| KeyError (key : string)
| FileNotFoundError (path : string)
| OSError (path : string)
| HDF5ExtError (path : string).

(** A Python expression or statement either completes with a value or
    raises. *)
Inductive outcome (A : Type) : Type :=
| Return (a : A)
| Raise (e : exn).
#[global] Arguments Return {A} a.
#[global] Arguments Raise {A} e.

#[global] Instance outcome_ret : MRet outcome := @Return.
#[global] Instance outcome_bind : MBind outcome := fun A B k m =>
  match m with
  | Return a => k a
  | Raise e => Raise e
  end.

(** [for a in l: s = body(a, s)], stopping at the first exception. *)
Fixpoint foldM {A S : Type} (body : A -> S -> outcome S) (l : list A) (s : S)
  : outcome S :=
  match l with
  | [] => Return s
  | a :: l' => s' ← body a s; foldM body l' s'
  end.

(** [for i in range(n)]. *)
Definition for_range {S : Type} (n : nat) (body : nat -> S -> outcome S)
  : S -> outcome S :=
  foldM body (seq 0 n).

(** [enumerate(l)]. *)
Definition enumerate {A : Type} (l : list A) : list (nat * A) :=
  zip (seq 0 (length l)) l.

(** [[f(a) for a in l]], left to right, stopping at the first exception. *)
Fixpoint map_outcome {A B : Type} (f : A -> outcome B) (l : list A)
  : outcome (list B) :=
  match l with
  | [] => Return []
  | a :: l' => b ← f a; bs ← map_outcome f l'; Return (b :: bs)
  end.

(** [int(v)] for a float [v]: the integer part, truncated toward zero;
    [ValueError] on NaN and [OverflowError] on an infinity. A finite
    binary64 value is [(-1)^s * m * 2^e]. *)
Definition py_int (v : float) : outcome Z :=
  match Prim2SF v with
  | S754_zero _ => Return 0
  | S754_nan => Raise ValueError
  | S754_infinity _ => Raise OverflowError
  | S754_finite s m e =>
      let a := if s then Z.neg m else Z.pos m in
      if 0 <=? e then Return (a * 2 ^ e) else Return (Z.quot a (2 ^ (- e)))
  end.

(** Conversion of a Python [int] to [float] in mixed arithmetic
    ([t_del * i]): round to nearest, ties to even. *)
Definition float_of_int (z : Z) : float :=
  SF2Prim (binary_normalize prec emax z 0 false).

(** The exact rational value of a finite float, used to state what
    [py_int] computes. *)
Definition float_value (v : float) : option Q :=
  match Prim2SF v with
  | S754_zero _ => Some 0%Q
  | S754_finite s m e =>
      let a := if s then Z.neg m else Z.pos m in
      Some (if 0 <=? e then inject_Z (a * 2 ^ e)
            else Qmake a (Z.to_pos (2 ^ (- e))))
  | _ => None
  end.

End Py.
Export Py.

(** ** numpy arrays *)
Module Numpy.

(** The data cube is read and never written: a shape and the cell at
    every position inside it. *)
Record ndarray5 : Type := {
  shape5 : nat * nat * nat * nat * nat;
  at5 : nat -> nat -> nat -> nat -> nat -> float
}.

(** An integer index into an axis of length [n]: a negative index counts
    from the end, anything outside [-n, n) is an [IndexError]. *)
Definition norm_index (n : nat) (i : Z) : outcome nat :=
  if (0 <=? i) && (i <? Z.of_nat n) then Return (Z.to_nat i)
  else if (- Z.of_nat n <=? i) && (i <? 0) then Return (Z.to_nat (i + Z.of_nat n))
  else Raise IndexError.

(** [a[t, f, s, y, x]]. *)
Definition getitem5 (a : ndarray5) (t f s : nat) (y x : Z) : outcome float :=
  let '(nt, nf, ns, ny, nx) := shape5 a in
  t' ← norm_index nt (Z.of_nat t);
  f' ← norm_index nf (Z.of_nat f);
  s' ← norm_index ns (Z.of_nat s);
  y' ← norm_index ny y;
  x' ← norm_index nx x;
  Return (at5 a t' f' s' y' x').

(** The output arrays are written cell by cell: the shape together with
    the cells as nested rows. *)
Record ndarray4 : Type := {
  shape4 : nat * nat * nat * nat;
  cells4 : list (list (list (list float)))
}.

Definition full4 (sh : nat * nat * nat * nat) (v : float) : ndarray4 :=
  let '(n0, n1, n2, n3) := sh in
  {| shape4 := sh;
     cells4 := replicate n0 (replicate n1 (replicate n2 (replicate n3 v))) |}.

(** [np.zeros(sh)] and [np.ones(sh)]. *)
Definition np_zeros (sh : nat * nat * nat * nat) : ndarray4 := full4 sh 0%float.
Definition np_ones (sh : nat * nat * nat * nat) : ndarray4 := full4 sh 1%float.

(** Reading the cell [a[t, s, d, f]]. *)
Definition get4 (a : ndarray4) (t s d f : nat) : option float :=
  row ← cells4 a !! t; r ← row !! s; q ← r !! d; q !! f.

(** [a[t, s, d, f] = v]. *)
Definition setitem4 (a : ndarray4) (t s d f : nat) (v : float) : outcome ndarray4 :=
  let '(n0, n1, n2, n3) := shape4 a in
  if (t <? n0)%nat && (s <? n1)%nat && (d <? n2)%nat && (f <? n3)%nat then
    Return {| shape4 := shape4 a;
              cells4 := alter (alter (alter (<[f := v]>) d) s) t (cells4 a) |}
  else Raise IndexError.

(** [a[:, :, d, :] = v]. The index [d] is checked against the third
    axis even when the selection is empty. *)
Definition set_dir_slice (a : ndarray4) (d : nat) (v : float) : outcome ndarray4 :=
  let '(n0, n1, n2, n3) := shape4 a in
  if (d <? n2)%nat then
    Return {| shape4 := shape4 a;
              cells4 :=
                (fun row : list (list (list float)) =>
                   (fun r : list (list float) =>
                      alter (fun q : list float => (fun _ => v) <$> q) d r) <$> row)
                <$> cells4 a |}
  else Raise IndexError.

(** The nested rows agree with the recorded shape. *)
Definition has_shape (a : ndarray4) : Prop :=
  let '(n0, n1, n2, n3) := shape4 a in
  length (cells4 a) = n0 /\
  Forall (fun p => length p = n1 /\
    Forall (fun r => length r = n2 /\
      Forall (fun q : list float => length q = n3) r) p) (cells4 a).

End Numpy.
Export Numpy.

(** ** The FITS cube *)
Module Fits.

(** The primary HDU of the cube: the data, indexed
    (time, frequency, antenna, y, x); the header cards the operation
    reads; and the header's coordinate system, taken as the function
    [wcs_world2pix] computes with origin 0 on the row
    [[ra, dec, 0, 0, 0]] (its first two components). *)
Record hdu : Type := {
  hdu_data : ndarray5;
  hdu_header : gmap string float;
  wcs_world2pix : float -> float -> float * float
}.

(** [header[key]]. *)
Definition header_get (h : hdu) (key : string) : outcome float :=
  match hdu_header h !! key with
  | Some v => Return v
  | None => Raise (KeyError key)
  end.

End Fits.
Export Fits.

(** ** The h5parm container (losoto) *)
Module H5parm.

Definition position : Type := float * float * float.

Record soltab : Type := {
  soltype : string;
  axesNames : list string;
  time_axis : list float;
  ant_axis : list string;
  dir_axis : list string;
  freq_axis : list float;
  st_vals : ndarray4;
  st_weights : ndarray4;
  history : list string
}.

Record solset : Type := {
  soltabs : list (string * soltab);
  antenna : list (string * position);
  source : list (string * (float * float))
}.

(** The contents of an h5parm file: its solution sets by name. *)
Definition h5parm : Type := list (string * solset).

Definition digit (n : nat) : string :=
  String (Ascii.ascii_of_nat (48 + n mod 10)) EmptyString.

(** ["sol%03d" % n]. *)
Definition sol_name (n : nat) : string :=
  "sol" +:+ digit (n / 100) +:+ digit (n / 10) +:+ digit n.

(** The first of [sol000 .. sol999] not yet in the file. *)
Definition first_avail_solset_name (h : h5parm) : outcome string :=
  match filter (fun n => sol_name n ∉ h.*1) (seq 0 1000) with
  | n :: _ => Return (sol_name n)
  | [] => Raise ValueError
  end.

(** [ho.makeSolset(solsetName)]: a new solution set with empty antenna
    and source tables; a name already present is replaced by the first
    available default name. *)
Definition makeSolset (solsetName : string) (h : h5parm)
  : outcome (string * h5parm) :=
  name ← (if bool_decide (solsetName ∈ h.*1) then first_avail_solset_name h
          else Return solsetName);
  Return (name, h ++ [(name, {| soltabs := []; antenna := []; source := [] |})]).

Definition alter_solset (f : solset -> solset) (name : string) (h : h5parm) : h5parm :=
  (fun e : string * solset => if String.eqb e.1 name then (e.1, f e.2) else e) <$> h.

(** [solset.makeSoltab(...)]. *)
Definition makeSoltab (name : string) (soltabName : string) (st : soltab) (h : h5parm)
  : h5parm :=
  alter_solset (fun s => {| soltabs := soltabs s ++ [(soltabName, st)];
                            antenna := antenna s; source := source s |}) name h.

(** A number as a 4-byte float column keeps it: rounded to the nearest
    binary32 value (ties to even, overflow to an infinity); NaN,
    infinities and zeros pass. *)
Definition to_float32 (v : float) : float :=
  match Prim2SF v with
  | S754_finite s m e =>
      SF2Prim (binary_normalize 24 128 (if s then Z.neg m else Z.pos m) e s)
  | _ => v
  end.

(** A name as a string column of [n] characters keeps it. *)
Definition fixed_width (n : nat) (name : string) : string := String.substring 0 n name.

(** The rows as the two side tables hold them: the antenna table has
    columns [name] (16 characters) and [position] (three 4-byte
    floats), the source table [name] (128 characters) and [dir] (two
    4-byte floats). *)
Definition antenna_row (r : string * position) : string * position :=
  (fixed_width 16 r.1,
   (to_float32 r.2.1.1, to_float32 r.2.1.2, to_float32 r.2.2)).

Definition source_row (r : string * (float * float)) : string * (float * float) :=
  (fixed_width 128 r.1, (to_float32 r.2.1, to_float32 r.2.2)).

(** [antennaTable.append(rows)] and [sourceTable.append(rows)]. An empty
    list of rows cannot be converted to the table's records and is a
    [ValueError]. *)
Definition antenna_append (name : string) (rows : list (string * position)) (h : h5parm)
  : outcome h5parm :=
  match rows with
  | [] => Raise ValueError
  | _ :: _ =>
      Return (alter_solset
                (fun s => {| soltabs := soltabs s;
                             antenna := antenna s ++ (antenna_row <$> rows);
                             source := source s |}) name h)
  end.

Definition source_append (name : string) (rows : list (string * (float * float)))
  (h : h5parm) : outcome h5parm :=
  match rows with
  | [] => Raise ValueError
  | _ :: _ =>
      Return (alter_solset
                (fun s => {| soltabs := soltabs s;
                             antenna := antenna s;
                             source := source s ++ (source_row <$> rows) |}) name h)
  end.

Definition addHistory (entry : string) (st : soltab) : soltab :=
  {| soltype := soltype st; axesNames := axesNames st;
     time_axis := time_axis st; ant_axis := ant_axis st;
     dir_axis := dir_axis st; freq_axis := freq_axis st;
     st_vals := st_vals st; st_weights := st_weights st;
     history := history st ++ [entry] |}.

(** [for st in solset.getSoltabs(): st.addHistory(entry)]. The time
    stamp losoto puts before the entry is left out. *)
Definition add_history_all (name : string) (entry : string) (h : h5parm) : h5parm :=
  alter_solset (fun s => {| soltabs := prod_map id (addHistory entry) <$> soltabs s;
                            antenna := antenna s; source := source s |}) name h.

End H5parm.
Export H5parm.

(** ** The state the operation reads and writes *)
Module World.

(** Values kept in the parset dictionary. *)
Inductive pyval : Type :=
| PStr (s : string)
| PBool (b : bool)
| PInt (n : Z)
| PList (l : list string).

(** What a path of the file system holds. *)
Inductive fsobj : Type :=
| FitsFile (h : hdu)
| H5File (h : h5parm)
| OtherFile
| Directory.

(** [parset_parameters] is the dictionary of the observation object; it
    is mutated in place, so it lives in the state. *)
Record world : Type := {
  files : gmap string fsobj;
  parset_parameters : gmap string pyval;
  logged : list (string * string)
}.

Definition M (A : Type) : Type := world -> outcome A * world.

#[global] Instance M_ret : MRet M := fun A a w => (Return a, w).
#[global] Instance M_bind : MBind M := fun A B k m w =>
  match m w with
  | (Return a, w') => k a w'
  | (Raise e, w') => (Raise e, w')
  end.

(** A computation on local variables only. *)
Definition lift {A : Type} (o : outcome A) : M A := fun w => (o, w).

Definition set_files (fs : gmap string fsobj) (w : world) : world :=
  {| files := fs; parset_parameters := parset_parameters w; logged := logged w |}.

Definition set_parset (p : gmap string pyval) (w : world) : world :=
  {| files := files w; parset_parameters := p; logged := logged w |}.

(** [logging.error(msg)]. *)
Definition logging_error (msg : string) : M unit := fun w =>
  (Return tt, {| files := files w; parset_parameters := parset_parameters w;
                 logged := logged w ++ [("ERROR"%string, msg)] |}).

(** [pyfits.open(name, memmap=False)[0]]: the cube is read into memory. *)
Definition pyfits_open (name : option string) : M hdu := fun w =>
  match name with
  | None => (Raise ValueError, w)
  | Some p =>
      match files w !! p with
      | Some (FitsFile h) => (Return h, w)
      | Some _ => (Raise (OSError p), w)
      | None => (Raise (FileNotFoundError p), w)
      end
  end.

(** The text before the last "/" of a path, when it has one. *)
Fixpoint before_last_slash (p : string) : option string :=
  match p with
  | EmptyString => None
  | String c rest =>
      match before_last_slash rest with
      | Some d => Some (String c d)
      | None => if Ascii.eqb c (Ascii.ascii_of_nat 47) then Some EmptyString else None
      end
  end.

(** The directory a path lies in is there: the current directory for a
    bare name, the root, or a directory of the file system. *)
Definition parent_exists (fs : gmap string fsobj) (p : string) : bool :=
  match before_last_slash p with
  | None => true
  | Some EmptyString => true
  | Some d => match fs !! d with Some Directory => true | _ => false end
  end.

(** A path names a file when it is not empty and does not end in "/". *)
Fixpoint last_char (p : string) : option Ascii.ascii :=
  match p with
  | EmptyString => None
  | String c EmptyString => Some c
  | String _ rest => last_char rest
  end.

Definition names_a_file (p : string) : bool :=
  match last_char p with
  | None => false
  | Some c => negb (Ascii.eqb c (Ascii.ascii_of_nat 47))
  end.

(** What the system finds at a path: nothing where the path does not
    name a file, and nothing in a directory that is not there. *)
Definition at_path (fs : gmap string fsobj) (p : string) : option fsobj :=
  if parent_exists fs p && names_a_file p then fs !! p else None.

(** [os.path.exists(p)] and [os.remove(p)]; a directory is not removed. *)
Definition os_path_exists (p : string) : M bool := fun w =>
  (Return (bool_decide (is_Some (at_path (files w) p))), w).

Definition os_remove (p : string) : M unit := fun w =>
  match at_path (files w) p with
  | Some Directory => (Raise (OSError p), w)
  | Some _ => (Return tt, set_files (delete p (files w)) w)
  | None => (Raise (FileNotFoundError p), w)
  end.

(** [h5parm(p, readonly=False)]: opens the file at [p] for update, or
    creates an empty one, which needs the directory to be there and [p]
    to name a file. The handle is the path. *)
Definition h5parm_open (p : string) : M unit := fun w =>
  match at_path (files w) p with
  | Some (H5File h) => (Return tt, w)
  | Some _ => (Raise (OSError p), w)
  | None =>
      if negb (parent_exists (files w) p) then (Raise (FileNotFoundError p), w)
      else if negb (names_a_file p) then (Raise (HDF5ExtError p), w)
      else (Return tt, set_files (<[p := H5File []]> (files w)) w)
  end.

(** An operation through the open handle: it works on the contents of
    the file, and what it has written is in the file from then on; an
    operation that raises has written nothing. *)
Definition h5parm_do {A : Type} (p : string) (op : h5parm -> outcome (A * h5parm))
  : M A := fun w =>
  match files w !! p with
  | Some (H5File h) =>
      match op h with
      | Return (a, h') => (Return a, set_files (<[p := H5File h']> (files w)) w)
      | Raise e => (Raise e, w)
      end
  | _ => (Raise (OSError p), w)
  end.

(** The same for an operation without a result. *)
Definition h5parm_write (p : string) (op : h5parm -> outcome h5parm) : M unit :=
  h5parm_do p (fun h => h' ← op h; Return (tt, h')).

(** [ho.close()]. *)
Definition h5parm_close (p : string) : M unit := mret tt.

(** [key in obs.parset_parameters], [obs.parset_parameters[key] = v] and
    [obs.parset_parameters[key].append(item)]. *)
Definition parset_contains (key : string) : M bool := fun w =>
  (Return (bool_decide (is_Some (parset_parameters w !! key))), w).

Definition parset_setitem (key : string) (v : pyval) : M unit := fun w =>
  (Return tt, set_parset (<[key := v]> (parset_parameters w)) w).

Definition parset_append (key : string) (item : string) : M unit := fun w =>
  match parset_parameters w !! key with
  | Some (PList l) =>
      (Return tt, set_parset (<[key := PList (l ++ [item])]> (parset_parameters w)) w)
  | Some _ => (Raise AttributeError, w)
  | None => (Raise (KeyError key), w)
  end.

End World.
Export World.

(** ** The TEC operation *)
Module Tec.

(** The observation object, as far as the operation reads it. *)
Record observation : Type := {
  get_patch_coords : list float * list float;
  get_patch_names : list string;
  stations : list string;
  stationpos : list position;
  starttime : float;
  timepersample : float;
  numsamples : nat
}.

(** *** Method 'fits' *)

(** The test of line 97. *)
Definition out_of_bounds (nx ny : nat) (x y : Z) : bool :=
  (x <? 0) || (x >? Z.of_nat nx) || (y <? 0) || (y >? Z.of_nat ny).

(** [x] and [y] of lines 95 and 96. *)
Definition pixel_of (h : hdu) (ra_deg dec_deg : float) : outcome (Z * Z) :=
  x ← py_int (wcs_world2pix h ra_deg dec_deg).1;
  y ← py_int (wcs_world2pix h ra_deg dec_deg).2;
  Return (x, y).

(** The three nested loops of lines 101 to 104. *)
Definition copy_pixel (data : ndarray5) (d : nat) (y x : Z) (vals : ndarray4)
  : outcome ndarray4 :=
  let '(ntimes, nfreqs, nstations, _, _) := shape5 data in
  for_range ntimes (fun t vals =>
    for_range nfreqs (fun f vals =>
      for_range nstations (fun s vals =>
        v ← getitem5 data t f s y x;
        setitem4 vals t s d f v) vals) vals) vals.

(** The body of the loop over the directions, lines 94 to 104. *)
Definition sample_direction (h : hdu) (entry : nat * (float * float))
  (vw : ndarray4 * ndarray4) : outcome (ndarray4 * ndarray4) :=
  let '(d, (ra_deg, dec_deg)) := entry in
  let '(vals, weights) := vw in
  let '(_, _, _, ny, nx) := shape5 (hdu_data h) in
  '(x, y) ← pixel_of h ra_deg dec_deg;
  if out_of_bounds nx ny x y then
    vals ← set_dir_slice vals d 1%float;
    weights ← set_dir_slice weights d 0%float;
    Return (vals, weights)
  else
    vals ← copy_pixel (hdu_data h) d y x vals;
    Return (vals, weights).

(** Lines 91 to 104: the value and weight arrays at the source
    coordinates. *)
Definition grid_sample (h : hdu) (ndirs : nat) (ras decs : list float)
  : outcome (ndarray4 * ndarray4) :=
  let '(ntimes, nfreqs, nstations, _, _) := shape5 (hdu_data h) in
  let vals := np_zeros (ntimes, nstations, ndirs, nfreqs) in
  let weights := np_ones (shape4 vals) in
  foldM (sample_direction h) (enumerate (zip ras decs)) (vals, weights).

(** [[ref + (del * i) for i in range(n)]], lines 109 and 112. *)
Definition linear_axis (ref del : float) (n : nat) : list float :=
  (fun i : nat => (ref + del * float_of_int (Z.of_nat i))%float) <$> seq 0 n.

Definition create_entry (h5parmFilename fitsFilename : string) : string :=
  "CREATE (by TEC operation of LoSiTo from obs " +:+ h5parmFilename
    +:+ " and FITS cube " +:+ fitsFilename +:+ ")".

(** The solution table handed to [makeSoltab], lines 120 to 122. *)
Definition tec_soltab (times : list float) (ants source_names : list string)
  (freqs : list float) (vals weights : ndarray4) : soltab :=
  {| soltype := "tec";
     axesNames := ["time"; "ant"; "dir"; "freq"]%string;
     time_axis := times; ant_axis := ants;
     dir_axis := source_names; freq_axis := freqs;
     st_vals := vals; st_weights := weights;
     history := [] |}.

(** Lines 115 to 134: the table goes to the output path. What is at the
    path goes first; every later step writes into the new file. *)
Definition persist_table (obs : observation) (h5parmFilename : string)
  (fitsFilename : option string) (source_names : list string) (ras decs : list float)
  (times freqs : list float) (vals weights : ndarray4) : M unit :=
  let ants := stations obs in
  present ← os_path_exists h5parmFilename;
  (if present : bool then os_remove h5parmFilename else mret tt);;
  h5parm_open h5parmFilename;;
  solset ← h5parm_do h5parmFilename (makeSolset "sol000");
  h5parm_write h5parmFilename
    (fun ho => Return (makeSoltab solset "tec000"
                         (tec_soltab times ants source_names freqs vals weights) ho));;
  h5parm_write h5parmFilename
    (antenna_append solset (zip (stations obs) (stationpos obs)));;
  h5parm_write h5parmFilename
    (source_append solset (zip source_names (zip ras decs)));;
  h5parm_write h5parmFilename
    (fun ho => Return (add_history_all solset
                         (create_entry h5parmFilename
                            (default "None"%string fitsFilename)) ho));;
  h5parm_close h5parmFilename.

(** Lines 78 to 134. The result is [Some status] when the branch returns
    from [run], [None] when control goes on after the [if]. *)
Definition fits_method (obs : observation) (h5parmFilename : string)
  (fitsFilename : option string) : M (option Z) :=
  let '(ras, decs) := get_patch_coords obs in
  let source_names := get_patch_names obs in
  let ndirs := length source_names in
  h ← pyfits_open fitsFilename;
  let '(ntimes, nfreqs, nstations, ny, nx) := shape5 (hdu_data h) in
  if negb (nstations =? length (stations obs))%nat then
    logging_error
      "Number of stations in input FITS cube does not match that in the input MS";;
    mret (Some 1)
  else
    '(vals, weights) ← lift (grid_sample h ndirs ras decs);
    t_ref ← lift (header_get h "CRVAL4");
    t_del ← lift (header_get h "CDELT4");
    let times := linear_axis t_ref t_del ntimes in
    f_ref ← lift (header_get h "CRVAL3");
    f_del ← lift (header_get h "CDELT3");
    let freqs := linear_axis f_ref f_del nfreqs in
    persist_table obs h5parmFilename fitsFilename source_names ras decs
      times freqs vals weights;;
    mret None.

(** *** Method 'wave' *)

(** The names bound at module level: the imports and the four
    functions. [os] comes in through [from losito.lib_operations
    import *]. The locals of [run] ([aa], [A12], [tid], [times], [obs])
    are not among them. *)
Definition module_globals : list string :=
  [ "logging"; "os"; "pyfits"; "wcs"; "h5parm"; "plt"; "np"; "u"; "coord";
    "SkyCoord"; "Time"; "EarthLocation"; "FK5"; "AltAz"; "Pool"; "pt"; "post";
    "_run_parser"; "_getaltaz"; "_gettec"; "run" ]%string.

(** Reading a name that is not local inside a module-level function. *)
Definition global_lookup (name : string) : outcome unit :=
  if bool_decide (name ∈ module_globals) then Return tt else Raise (NameError name).

(** A coordinate transformed to the horizon frame; astropy's numbers are
    not modelled. *)
Inductive altaz : Type := AltAz_of (radec : float * float).

(** [coord.SkyCoord(ra, dec, frame=coord.FK5, unit=(u.hourangle, u.deg))]
    of line 38: a declination below -90 or above 90 degrees is a
    [ValueError]; a right ascension is wrapped, whatever it is. *)
Definition skycoord (ra dec : float) : outcome (float * float) :=
  if ((dec <? -90) || (90 <? dec))%float then Raise ValueError else Return (ra, dec).

(** Lines 35 to 40: the coordinate is built on line 38, and line 39
    then reads the global [aa]. *)
Definition _getaltaz (radec : float * float) : outcome altaz :=
  global_lookup "coord";;
  global_lookup "u";;
  mycoord ← skycoord radec.1 radec.2;
  global_lookup "aa";;
  Return (AltAz_of mycoord).

(** Lines 43 to 54, as the sequence of globals the body reads; the
    piercing-point geometry behind them is not modelled. *)
Definition _gettec (a : altaz) : outcome (list (list float)) :=
  global_lookup "obs";;
  global_lookup "post";;
  global_lookup "EarthLocation";;
  global_lookup "u";;
  global_lookup "A12";;
  global_lookup "tid";;
  global_lookup "times";;
  Return [].

(** [p.map(f, l)] of a worker pool: the results in the order of [l], or
    the exception of a worker. *)
Definition pool_map {A B : Type} (f : A -> outcome B) (l : list A)
  : outcome (list B) :=
  map_outcome f l.

(** [a / b] on integers. *)
Definition int_truediv (a b : Z) : outcome float :=
  if b =? 0 then Raise ZeroDivisionError
  else Return (float_of_int a / float_of_int b)%float.

(** Lines 138 and 139. *)
Definition wave_times (obs : observation) : list float :=
  (fun t : float => (t / (3600 * 24))%float) <$>
  ((fun i : nat => (starttime obs + float_of_int (Z.of_nat i) * timepersample obs)%float)
     <$> seq 0 (numsamples obs)).

(** Lines 138 to 161. *)
Definition wave_method (obs : observation) : M (option Z) :=
  let '(ras, decs) := get_patch_coords obs in
  let times := wave_times obs in
  let radec := zip ras decs in
  altazcoord ← lift (pool_map _getaltaz radec);
  alltec ← lift (pool_map _gettec altazcoord);
  lift (int_truediv 0 0);;
  mret None.

(** *** The parset update, lines 165 to 172 *)
Definition update_parset (h5parmFilename : string) : M unit :=
  parset_setitem "predict.applycal.parmdb" (PStr h5parmFilename);;
  present ← parset_contains "predict.applycal.steps";
  (if present : bool then parset_append "predict.applycal.steps" "tec"
   else parset_setitem "predict.applycal.steps" (PList ["tec"%string]));;
  parset_setitem "predict.applycal.correction" (PStr "tec000");;
  parset_setitem "predict.applycal.tec.correction" (PStr "tec000").

(** *** [run] *)
Definition run (obs : observation) (method h5parmFilename : string)
  (fitsFilename : option string) : M Z :=
  early ← (if String.eqb method "fits" then fits_method obs h5parmFilename fitsFilename
           else if String.eqb method "wave" then wave_method obs
           else mret None);
  match early with
  | Some status => mret status
  | None => update_parset h5parmFilename;; mret 0
  end.

End Tec.
Export Tec.


(** ** Vocabulary of the statements *)
Module TecSpec.

(** The five lengths of the cube. *)
Definition ntimes_of (h : hdu) : nat := (shape5 (hdu_data h)).1.1.1.1.
Definition nfreqs_of (h : hdu) : nat := (shape5 (hdu_data h)).1.1.1.2.
Definition nstations_of (h : hdu) : nat := (shape5 (hdu_data h)).1.1.2.
Definition ny_of (h : hdu) : nat := (shape5 (hdu_data h)).1.2.
Definition nx_of (h : hdu) : nat := (shape5 (hdu_data h)).2.

(** The directions the loop of line 93 visits, in order. *)
Definition directions (obs : observation) : list (float * float) :=
  zip (get_patch_coords obs).1 (get_patch_coords obs).2.

(** A pixel inside the spatial extent [0, width) x [0, height). *)
Definition in_bounds (h : hdu) (x y : Z) : Prop :=
  (0 <= x < Z.of_nat (nx_of h)) /\ (0 <= y < Z.of_nat (ny_of h)).

(** Direction [d] takes the branch of lines 98 to 100. *)
Definition flagged (h : hdu) (dirs : list (float * float)) (d : nat) : Prop :=
  exists ra dec x y,
    dirs !! d = Some (ra, dec) /\ pixel_of h ra dec = Return (x, y) /\
    out_of_bounds (nx_of h) (ny_of h) x y = true.

(** [a1] is [a0] with the cells of direction [d] whose
    (time, frequency, antenna) lies in [R] overwritten by the cube's value
    at pixel [(x, y)], and nothing else changed. *)
Definition writes (data : ndarray5) (d : nat) (y x : Z)
  (R : nat -> nat -> nat -> Prop) (a0 a1 : ndarray4) : Prop :=
  shape4 a1 = shape4 a0 /\ has_shape a1 /\
  (forall t s d' f, ~ (d' = d /\ R t f s) -> get4 a1 t s d' f = get4 a0 t s d' f) /\
  (forall t f s, R t f s ->
     exists v, getitem5 data t f s y x = Return v /\ get4 a1 t s d f = Some v).

(** The first entry of an association list under a key. *)
Fixpoint assoc {A : Type} (key : string) (l : list (string * A)) : option A :=
  match l with
  | [] => None
  | (k, a) :: l' => if String.eqb k key then Some a else assoc key l'
  end.

(** The solution table [soltabName] of solution set [solsetName] in the
    h5parm file at [path]. *)
Definition lookup_soltab (w : world) (path solsetName soltabName : string)
  : option soltab :=
  match files w !! path with
  | Some (H5File h) => s ← assoc solsetName h; assoc soltabName (soltabs s)
  | _ => None
  end.

(** What a successful run in 'fits' mode leaves at the output path. *)
Definition tec_file (obs : observation) (h : hdu) (h5parmFilename fitsFilename : string)
  (vals weights : ndarray4) (t_ref t_del f_ref f_del : float) : h5parm :=
  [("sol000"%string,
    {| soltabs :=
         [("tec000"%string,
           {| soltype := "tec";
              axesNames := ["time"; "ant"; "dir"; "freq"]%string;
              time_axis := linear_axis t_ref t_del (ntimes_of h);
              ant_axis := stations obs;
              dir_axis := get_patch_names obs;
              freq_axis := linear_axis f_ref f_del (nfreqs_of h);
              st_vals := vals; st_weights := weights;
              history := [create_entry h5parmFilename fitsFilename] |})];
       antenna := antenna_row <$> zip (stations obs) (stationpos obs);
       source := source_row <$> zip (get_patch_names obs) (directions obs) |})].

(** [z] is the rational [q] with its fraction dropped. *)
Definition truncation_of (q : Q) (z : Z) : Prop :=
  (inject_Z (Z.abs z) <= Qabs q)%Q /\ (Qabs q < inject_Z (Z.abs z) + 1)%Q /\
  (0 <= inject_Z z * q)%Q.

(** Rounding to the nearest integer, as the specification words it
    (halves away from zero). *)
Definition spec_round_nearest (v : float) : outcome Z :=
  match Prim2SF v with
  | S754_zero _ => Return 0
  | S754_nan => Raise ValueError
  | S754_infinity _ => Raise OverflowError
  | S754_finite s m e =>
      let a := if 0 <=? e then Z.pos m * 2 ^ e
               else (2 * Z.pos m + 2 ^ (- e)) / (2 * 2 ^ (- e)) in
      Return (if s then - a else a)
  end.

End TecSpec.
Export TecSpec.

(** ** Concrete observations and cubes *)
Module Examples.

(** A cube of 2 times, 2 frequencies and 2 antennas over an image of
    1 row and 5 columns; the cell at (t, f, s, y, x) holds
    1000 t + 100 f + 10 s + x. Its projection sends the right ascension
    to the fractional column and the declination to the fractional row. *)
Definition cubeA_cell (t f s x : nat) : float :=
  (default 0 ([0; 1000] !! t) + default 0 ([0; 100] !! f)
   + default 0 ([0; 10] !! s) + default 0 ([0; 1; 2; 3; 4] !! x))%float.

Definition cubeA : hdu :=
  {| hdu_data :=
       {| shape5 := (2, 2, 2, 1, 5)%nat;
          at5 := fun t f s _ x => cubeA_cell t f s x |};
     hdu_header := {[ "CRVAL4"%string := 10%float; "CDELT4"%string := 2%float;
                      "CRVAL3"%string := 100%float; "CDELT3"%string := 0.5%float ]};
     wcs_world2pix := fun ra dec => (ra, dec) |}.

(** An observation of the two antennas with the given patches. *)
Definition obs_of (names : list string) (ras decs : list float) : observation :=
  {| get_patch_coords := (ras, decs);
     get_patch_names := names;
     stations := ["CS001"; "CS002"]%string;
     stationpos := [(1, 2, 3); (4, 5, 6)]%float;
     starttime := 0; timepersample := 1; numsamples := 2 |}.

(** Three patches: the second projects 5 pixels past the last column. *)
Definition obsA : observation :=
  obs_of ["D1"; "D2"; "D3"]%string [1.2; 10; 3.7]%float [0; 0; 0]%float.

(** One patch at fractional column 3.7, one at column -0.4. *)
Definition obs37 : observation :=
  obs_of ["P1"; "P2"]%string [3.7; -0.4]%float [0; 0]%float.

(** One patch that projects exactly one column past the last. *)
Definition obs_edge : observation := obs_of ["E1"%string] [5%float] [0%float].

(** No patch at all. *)
Definition obs_none : observation := obs_of [] [] [].

(** The three patches seen by three antennas. *)
Definition obs_three_stations : observation :=
  {| get_patch_coords := get_patch_coords obsA;
     get_patch_names := get_patch_names obsA;
     stations := ["CS001"; "CS002"; "CS003"]%string;
     stationpos := [(1, 2, 3); (4, 5, 6); (7, 8, 9)]%float;
     starttime := 0; timepersample := 1; numsamples := 2 |}.

Definition world0 : world :=
  {| files := {[ "cube.fits"%string := FitsFile cubeA ]};
     parset_parameters := ∅;
     logged := [] |}.

(** A table of an earlier run is at the output path, and the beam
    operation is already among the correction steps. *)
Definition world_prior : world :=
  {| files := {[ "cube.fits"%string := FitsFile cubeA;
                 "out.h5"%string :=
                   H5File [("sol000"%string,
                            {| soltabs := []; antenna := [("OLD"%string, (0, 0, 0)%float)];
                               source := [] |})] ]};
     parset_parameters :=
       {[ "predict.applycal.steps"%string := PList ["beam"%string] ]};
     logged := [] |}.

End Examples.

(** ** The step parser *)
Module Parser.

(** The parser object handed to [_run_parser]. Its class is not part of
    the operations; it is taken as its three methods, each free to read
    and change the state (to log, for one). [getstr s v default] and
    [getbool s v default] read option [v] of section [s];
    [checkSpelling s availValues] checks the option names of the
    section against the known ones. *)
Record parser : Type := {
  getstr : string -> string -> option string -> M string;
  getbool : string -> string -> option bool -> M bool;
  checkSpelling : string -> list string -> M unit
}.

(** A parser whose calls leave the files alone. *)
Definition keeps_files (p : parser) : Prop :=
  (forall s v d w, files (getstr p s v d w).2 = files w) /\
  (forall s v d w, files (getbool p s v d w).2 = files w) /\
  (forall s l w, files (checkSpelling p s l w).2 = files w).

(** A parser whose calls leave the parset alone. *)
Definition keeps_parset (p : parser) : Prop :=
  (forall s v d w, parset_parameters (getstr p s v d w).2 = parset_parameters w) /\
  (forall s v d w, parset_parameters (getbool p s v d w).2 = parset_parameters w) /\
  (forall s l w, parset_parameters (checkSpelling p s l w).2 = parset_parameters w).

End Parser.
Export Parser.

(** ** The parser entry point of the TEC operation *)
Module TecEntry.

(** Lines 26 to 32 of [tec.py]. The call of line 32 is positional:
    [run(obs, fitsFilename, h5parmFilename)] binds the FITS file name to
    the parameter [method] and the h5parm file name to
    [h5parmFilename], and leaves [fitsFilename] at its default [None]. *)
Definition _run_parser (obs : observation) (parser : parser) (step : string) : M Z :=
  method ← getstr parser step "method" None;
  fitsFilename ← getstr parser step "fitsFilename" (Some EmptyString);
  h5parmFilename ← getstr parser step "h5parmFilename"
                      (Some (fitsFilename +:+ ".h5parm"));
  checkSpelling parser step ["fitsFilename"; "h5parmFilename"]%string;;
  run obs fitsFilename h5parmFilename None.

End TecEntry.

(** ** The beam operation, [beam.py] *)
Module Beam.

Definition beam_modes : list string := ["default"; "array_factor"; "element"]%string.

Definition double_quote : string := String (Ascii.ascii_of_nat 34) EmptyString.

(** The message of line 36. *)
Definition not_understood (mode : string) : string :=
  "mode " +:+ double_quote +:+ mode +:+ double_quote +:+ " not understood".

(** Lines 21 to 45. *)
Definition run (obs : observation) (mode : string) (usechannelfreq onebeamperpatch : bool)
  : M Z :=
  if negb (bool_decide (mode ∈ beam_modes)) then
    logging_error (not_understood mode);;
    mret 1
  else
    parset_setitem "predict.usebeammodel" (PBool true);;
    parset_setitem "predict.beammode" (PStr mode);;
    parset_setitem "predict.usechannelfreq" (PBool usechannelfreq);;
    parset_setitem "predict.onebeamperpatch" (PBool onebeamperpatch);;
    mret 0.

(** Lines 12 to 18. *)
Definition _run_parser (obs : observation) (parser : parser) (step : string) : M Z :=
  mode ← getstr parser step "mode" (Some "default"%string);
  usechannelfreq ← getbool parser step "usechannelfreq" (Some true);
  onebeamperpatch ← getbool parser step "onebeamperpatch" (Some false);
  checkSpelling parser step ["mode"; "usechannelfreq"; "onebeamperpatch"]%string;;
  run obs mode usechannelfreq onebeamperpatch.

(** The four keys the operation writes. *)
Definition beam_keys : list string :=
  ["predict.usebeammodel"; "predict.beammode"; "predict.usechannelfreq";
   "predict.onebeamperpatch"]%string.

End Beam.

(** ** More vocabulary and examples *)
Module TecSpec2.

(** The four keys the TEC operation writes. *)
Definition tec_keys : list string :=
  ["predict.applycal.parmdb"; "predict.applycal.steps"; "predict.applycal.correction";
   "predict.applycal.tec.correction"]%string.

(** What line 97 and line 104 together accept: a pixel that is flagged,
    or one inside the image. *)
Definition pixel_ok (h : hdu) (radec : float * float) : Prop :=
  exists x y, pixel_of h radec.1 radec.2 = Return (x, y) /\
    (out_of_bounds (nx_of h) (ny_of h) x y = true \/ in_bounds h x y).

(** A new file can be put at the path: the path names a file, it is
    not a directory, and the directory it lies in is there. *)
Definition can_create (w : world) (path : string) : Prop :=
  names_a_file path = true /\
  files w !! path <> Some Directory /\
  parent_exists (files w) path = true.

(** The rows that go to the two side tables, lines 124 and 127. *)
Definition antenna_rows (obs : observation) : list (string * position) :=
  zip (stations obs) (stationpos obs).

Definition source_rows (obs : observation) : list (string * (float * float)) :=
  zip (get_patch_names obs) (directions obs).

(** The contents of the file once every step of [persist_table] has
    gone through. *)
Definition table_of (obs : observation) (h5parmFilename : string)
  (fitsFilename : option string) (source_names : list string) (ras decs : list float)
  (times freqs : list float) (vals weights : ndarray4) : h5parm :=
  [("sol000"%string,
    {| soltabs :=
         [("tec000"%string,
           {| soltype := "tec";
              axesNames := ["time"; "ant"; "dir"; "freq"]%string;
              time_axis := times; ant_axis := stations obs;
              dir_axis := source_names; freq_axis := freqs;
              st_vals := vals; st_weights := weights;
              history := [create_entry h5parmFilename
                            (default "None"%string fitsFilename)] |})];
       antenna := antenna_row <$> zip (stations obs) (stationpos obs);
       source := source_row <$> zip source_names (zip ras decs) |})].

(** A file whose writing stopped at a side table: the solution table
    is in it, the source table is empty and the table has no history
    entry. *)
Definition unfinished (ho : h5parm) : Prop :=
  exists sset st,
    ho = [("sol000"%string, sset)] /\ soltabs sset = [("tec000"%string, st)] /\
    source sset = [] /\ history st = [].

(** The value under the steps key lets [append] go through. *)
Definition steps_appendable (w : world) : Prop :=
  parset_parameters w !! "predict.applycal.steps"%string = None \/
  exists l, parset_parameters w !! "predict.applycal.steps"%string = Some (PList l).

(** The steps after the update of lines 167 to 170. *)
Definition steps_after (w : world) : list string :=
  match parset_parameters w !! "predict.applycal.steps"%string with
  | Some (PList l) => l ++ ["tec"%string]
  | _ => ["tec"%string]
  end.

(** The parset after the update of lines 166 to 172 has gone through. *)
Definition parset_after (h5parmFilename : string) (w : world) : gmap string pyval :=
  <["predict.applycal.tec.correction"%string := PStr "tec000"]>
    (<["predict.applycal.correction"%string := PStr "tec000"]>
       (<["predict.applycal.steps"%string := PList (steps_after w)]>
          (<["predict.applycal.parmdb"%string := PStr h5parmFilename]>
             (parset_parameters w)))).

(** A parser over a fixed table of string options; options that are not
    in the table take their default. *)
Definition table_parser (cfg : gmap string string) : parser :=
  {| getstr := fun _ v d w =>
       match cfg !! v, d with
       | Some s, _ => (Return s, w)
       | None, Some s => (Return s, w)
       | None, None => (Raise (KeyError v), w)
       end;
     getbool := fun _ v d w =>
       match d with
       | Some b => (Return b, w)
       | None => (Raise (KeyError v), w)
       end;
     checkSpelling := fun _ _ w => (Return tt, w) |}.




(** Three patch names for two coordinate pairs, and the reverse. *)
Definition obs_more_names : observation :=
  Examples.obs_of ["D1"; "D2"; "D3"]%string [1.2; 10]%float [0; 0]%float.


End TecSpec2.
Export TecSpec2.

(** * Facts about the arrays *)
Section ndarray4_facts.
Implicit Types (a : ndarray4) (t s d f : nat) (v : float).

Lemma zero_ne_one : 0%float <> 1%float.
Proof.
  intros H. apply (f_equal Prim2SF) in H. vm_compute in H. discriminate.
Qed.

Lemma shape4_full4 sh v : shape4 (full4 sh v) = sh.
Proof. by destruct sh as [[[n0 n1] n2] n3]. Qed.

Lemma has_shape_full4 sh v : has_shape (full4 sh v).
Proof.
  destruct sh as [[[n0 n1] n2] n3]. unfold has_shape; simpl.
  split; [apply length_replicate|].
  apply Forall_replicate. split; [apply length_replicate|].
  apply Forall_replicate. split; [apply length_replicate|].
  apply Forall_replicate, length_replicate.
Qed.

Lemma get4_full4 n0 n1 n2 n3 v t s d f :
  (t < n0)%nat -> (s < n1)%nat -> (d < n2)%nat -> (f < n3)%nat ->
  get4 (full4 (n0, n1, n2, n3) v) t s d f = Some v.
Proof.
  intros Ht Hs Hd Hf. unfold get4; simpl.
  rewrite lookup_replicate_2 by done; simpl.
  rewrite lookup_replicate_2 by done; simpl.
  rewrite lookup_replicate_2 by done; simpl.
  by rewrite lookup_replicate_2.
Qed.

Lemma get4_in_range a n0 n1 n2 n3 t s d f :
  has_shape a -> shape4 a = (n0, n1, n2, n3) ->
  (t < n0)%nat -> (s < n1)%nat -> (d < n2)%nat -> (f < n3)%nat ->
  is_Some (get4 a t s d f).
Proof.
  unfold has_shape, get4. intros Hsh Heq Ht Hs Hd Hf. rewrite Heq in Hsh.
  destruct Hsh as [H0 Hrows].
  destruct (lookup_lt_is_Some_2 (cells4 a) t) as [row Hrow]; [lia|].
  rewrite Hrow; simpl.
  apply (proj1 (Forall_lookup _ _) Hrows _ _) in Hrow as [H1 Hr].
  destruct (lookup_lt_is_Some_2 row s) as [r Hr']; [lia|].
  rewrite Hr'; simpl.
  apply (proj1 (Forall_lookup _ _) Hr _ _) in Hr' as [H2 Hq].
  destruct (lookup_lt_is_Some_2 r d) as [q Hq']; [lia|].
  rewrite Hq'; simpl.
  apply (proj1 (Forall_lookup _ _) Hq _ _) in Hq'.
  apply lookup_lt_is_Some_2. lia.
Qed.

Lemma setitem4_Return a t s d f v a' :
  setitem4 a t s d f v = Return a' ->
  ((t < (shape4 a).1.1.1)%nat /\ (s < (shape4 a).1.1.2)%nat /\
   (d < (shape4 a).1.2)%nat /\ (f < (shape4 a).2)%nat) /\
  shape4 a' = shape4 a /\
  cells4 a' = alter (alter (alter (<[f := v]>) d) s) t (cells4 a).
Proof.
  unfold setitem4. destruct (shape4 a) as [[[n0 n1] n2] n3] eqn:E; simpl.
  destruct (_ && _) eqn:Hb; [|discriminate].
  intros [= <-]; simpl. split; [|done].
  repeat (apply andb_prop in Hb as [Hb ?]).
  repeat match goal with H : (_ <? _)%nat = true |- _ => apply Nat.ltb_lt in H end.
  done.
Qed.

Lemma setitem4_shape a t s d f v a' :
  setitem4 a t s d f v = Return a' -> shape4 a' = shape4 a.
Proof. intros H. by apply setitem4_Return in H as (_ & ? & _). Qed.

Lemma setitem4_has_shape a t s d f v a' :
  has_shape a -> setitem4 a t s d f v = Return a' -> has_shape a'.
Proof.
  intros Hsh H. apply setitem4_Return in H as (_ & Hs & Hc).
  unfold has_shape in *. rewrite Hs, Hc.
  destruct (shape4 a) as [[[n0 n1] n2] n3]. destruct Hsh as [H0 Hrows].
  split; [by rewrite length_alter|].
  apply Forall_alter; [done|]. intros row _ [H1 Hr].
  split; [by rewrite length_alter|].
  apply Forall_alter; [done|]. intros r _ [H2 Hq].
  split; [by rewrite length_alter|].
  apply Forall_alter; [done|]. intros q _ H3.
  by rewrite length_insert.
Qed.

Lemma setitem4_get_ne a t s d f v a' t' s' d' f' :
  setitem4 a t s d f v = Return a' ->
  (t, s, d, f) <> (t', s', d', f') ->
  get4 a' t' s' d' f' = get4 a t' s' d' f'.
Proof.
  intros H Hne. apply setitem4_Return in H as (_ & _ & Hc).
  unfold get4. rewrite Hc.
  destruct (decide (t = t')) as [<-|]; [|by rewrite list_lookup_alter_ne].
  rewrite list_lookup_alter_eq. destruct (cells4 a !! t) as [row|]; [simpl|done].
  destruct (decide (s = s')) as [<-|]; [|by rewrite list_lookup_alter_ne].
  rewrite list_lookup_alter_eq. destruct (row !! s) as [r|]; [simpl|done].
  destruct (decide (d = d')) as [<-|]; [|by rewrite list_lookup_alter_ne].
  rewrite list_lookup_alter_eq. destruct (r !! d) as [q|]; [simpl|done].
  apply list_lookup_insert_ne. congruence.
Qed.

Lemma setitem4_get_eq a t s d f v a' :
  has_shape a -> setitem4 a t s d f v = Return a' ->
  get4 a' t s d f = Some v.
Proof.
  intros Hsh H.
  destruct (shape4 a) as [[[n0 n1] n2] n3] eqn:E.
  pose proof H as H'. apply setitem4_Return in H' as ((Ht & Hs & Hd & Hf) & _ & Hc).
  rewrite E in Ht, Hs, Hd, Hf; simpl in *.
  destruct (get4_in_range a n0 n1 n2 n3 t s d f) as [w Hw]; try done.
  unfold get4 in *. rewrite Hc, list_lookup_alter_eq.
  destruct (cells4 a !! t) as [row|]; [simpl in *|done].
  rewrite list_lookup_alter_eq.
  destruct (row !! s) as [r|]; [simpl in *|done].
  rewrite list_lookup_alter_eq.
  destruct (r !! d) as [q|]; [simpl in *|done].
  apply list_lookup_insert_eq. by eapply lookup_lt_Some.
Qed.

Lemma set_dir_slice_Return a d v a' :
  set_dir_slice a d v = Return a' ->
  (d < (shape4 a).1.2)%nat /\
  shape4 a' = shape4 a /\
  cells4 a' =
    (fun row : list (list (list float)) =>
       (fun r : list (list float) =>
          alter (fun q : list float => (fun _ => v) <$> q) d r) <$> row)
    <$> cells4 a.
Proof.
  unfold set_dir_slice. destruct (shape4 a) as [[[n0 n1] n2] n3] eqn:E; simpl.
  destruct (_ <? _)%nat eqn:Hb; [|discriminate].
  intros [= <-]; simpl. by apply Nat.ltb_lt in Hb.
Qed.

Lemma set_dir_slice_shape a d v a' :
  set_dir_slice a d v = Return a' -> shape4 a' = shape4 a.
Proof. intros H. by apply set_dir_slice_Return in H as (_ & ? & _). Qed.

Lemma set_dir_slice_has_shape a d v a' :
  has_shape a -> set_dir_slice a d v = Return a' -> has_shape a'.
Proof.
  intros Hsh H. apply set_dir_slice_Return in H as (_ & Hs & Hc).
  unfold has_shape in *. rewrite Hs, Hc.
  destruct (shape4 a) as [[[n0 n1] n2] n3]. destruct Hsh as [H0 Hrows].
  split; [by rewrite length_fmap|].
  apply Forall_fmap. eapply Forall_impl; [exact Hrows|].
  intros row [H1 Hr]; simpl. split; [by rewrite length_fmap|].
  apply Forall_fmap. eapply Forall_impl; [exact Hr|].
  intros r [H2 Hq]; simpl. split; [by rewrite length_alter|].
  apply Forall_alter; [done|]. intros q _ H3. by rewrite length_fmap.
Qed.

Lemma set_dir_slice_get_ne a d v a' t s d' f :
  set_dir_slice a d v = Return a' -> d <> d' ->
  get4 a' t s d' f = get4 a t s d' f.
Proof.
  intros H Hne. apply set_dir_slice_Return in H as (_ & _ & Hc).
  unfold get4. rewrite Hc, list_lookup_fmap.
  destruct (cells4 a !! t) as [row|]; [simpl|done].
  rewrite list_lookup_fmap. destruct (row !! s) as [r|]; [simpl|done].
  by rewrite list_lookup_alter_ne.
Qed.

Lemma set_dir_slice_get_eq a d v a' t s f :
  set_dir_slice a d v = Return a' ->
  is_Some (get4 a t s d f) ->
  get4 a' t s d f = Some v.
Proof.
  intros H [w Hw]. apply set_dir_slice_Return in H as (_ & _ & Hc).
  unfold get4 in *. rewrite Hc, list_lookup_fmap.
  destruct (cells4 a !! t) as [row|]; [simpl in *|done].
  rewrite list_lookup_fmap. destruct (row !! s) as [r|]; [simpl in *|done].
  rewrite list_lookup_alter_eq. destruct (r !! d) as [q|]; [simpl in *|done].
  by rewrite list_lookup_fmap, Hw.
Qed.

End ndarray4_facts.

(** * Facts about the loops *)
Section loop_facts.
Context {A S : Type}.
Implicit Types (body : A -> S -> outcome S) (l : list A).

Lemma foldM_cons body a l s :
  foldM body (a :: l) s = (s' ← body a s; foldM body l s').
Proof. done. Qed.

End loop_facts.

Ltac split_writes := unfold writes; split; [|split; [|split]].

Section copy_pixel_facts.
Variables (data : ndarray5) (d : nat) (y x : Z).
Implicit Types (R : nat -> nat -> nat -> Prop) (a : ndarray4).

Lemma writes_nothing R a :
  has_shape a -> (forall t f s, ~ R t f s) -> writes data d y x R a a.
Proof.
  intros Hsh HR. split_writes; [done|done|done|].
  intros t f s HRt. by destruct (HR t f s).
Qed.

Lemma writes_iff R R' a0 a1 :
  (forall t f s, R t f s <-> R' t f s) ->
  writes data d y x R a0 a1 -> writes data d y x R' a0 a1.
Proof.
  intros Hiff (Hs & Hsh & Hframe & Hset). split_writes; [done|done| |].
  - intros t s d' f Hn. apply Hframe. intros [? ?]. apply Hn. split; [done|].
    by apply Hiff.
  - intros t f s HR. apply Hset. by apply Hiff.
Qed.

Lemma writes_then R1 R2 a0 a1 a2 :
  (forall t f s, Decision (R2 t f s)) ->
  writes data d y x R1 a0 a1 -> writes data d y x R2 a1 a2 ->
  writes data d y x (fun t f s => R1 t f s \/ R2 t f s) a0 a2.
Proof.
  intros Hdec (Hs1 & Hsh1 & Hframe1 & Hset1) (Hs2 & Hsh2 & Hframe2 & Hset2).
  split_writes; [congruence|done| |].
  - intros t s d' f Hn. rewrite Hframe2, Hframe1; [done| |]; tauto.
  - intros t f s HR. destruct (decide (R2 t f s)) as [H2|H2]; [by apply Hset2|].
    destruct HR as [H1|?]; [|done].
    destruct (Hset1 t f s H1) as (v & Hv & Hget). exists v. split; [done|].
    rewrite Hframe2; [done|tauto].
Qed.

Lemma writes_setitem a t f s a' :
  has_shape a ->
  (v ← getitem5 data t f s y x; setitem4 a t s d f v) = Return a' ->
  writes data d y x (fun t' f' s' => t' = t /\ f' = f /\ s' = s) a a'.
Proof.
  intros Hsh Hrun. destruct (getitem5 data t f s y x) as [v|] eqn:Hv; [|discriminate].
  simpl in Hrun. split_writes.
  - by eapply setitem4_shape.
  - by eapply setitem4_has_shape.
  - intros t' s' d' f' Hn. eapply setitem4_get_ne; [done|].
    intros [= -> -> -> ->]. tauto.
  - intros t' f' s' (-> & -> & ->). exists v. split; [done|].
    by eapply setitem4_get_eq.
Qed.

(** A loop whose body writes the region [Rb i] at step [i] writes the
    union of those regions. *)
Lemma foldM_writes {I : Type} (body : I -> ndarray4 -> outcome ndarray4)
    (Rb : I -> nat -> nat -> nat -> Prop) (l : list I) a0 a' :
  (forall i t f s, Decision (Rb i t f s)) ->
  (forall i a a1, has_shape a -> body i a = Return a1 -> writes data d y x (Rb i) a a1) ->
  has_shape a0 ->
  foldM body l a0 = Return a' ->
  writes data d y x (fun t f s => Exists (fun i => Rb i t f s) l) a0 a'.
Proof.
  intros Hdec Hbody. revert a0. induction l as [|i l IH]; intros a0 Hsh Hrun; simpl in Hrun.
  - injection Hrun as <-. apply writes_nothing; [done|].
    intros t f s H. by apply Exists_nil in H.
  - destruct (body i a0) as [a1|] eqn:Hb; simpl in Hrun; [|discriminate].
    pose proof (Hbody i a0 a1 Hsh Hb) as H1.
    assert (has_shape a1) as Hsh1 by apply H1.
    pose proof (IH a1 Hsh1 Hrun) as H2.
    eapply writes_iff; [|eapply writes_then; [|exact H1|exact H2]].
    + intros t f s. by rewrite Exists_cons.
    + intros t f s. apply _.
Qed.

Lemma Exists_seq (P : nat -> Prop) (n : nat) :
  Exists P (seq 0 n) <-> exists i, (i < n)%nat /\ P i.
Proof.
  rewrite Exists_exists. split.
  - intros (i & Hi & HP). exists i. split; [|done].
    apply elem_of_seq in Hi. lia.
  - intros (i & Hi & HP). exists i. split; [|done].
    apply elem_of_seq. lia.
Qed.

Lemma copy_pixel_writes a a' :
  has_shape a ->
  copy_pixel data d y x a = Return a' ->
  writes data d y x
    (fun t f s => (t < (shape5 data).1.1.1.1)%nat /\ (f < (shape5 data).1.1.1.2)%nat /\
                  (s < (shape5 data).1.1.2)%nat) a a'.
Proof.
  unfold copy_pixel, for_range.
  destruct (shape5 data) as [[[[ntimes nfreqs] nstations] ny] nx]; simpl.
  intros Hsh Hrun.
  eapply writes_iff; [|eapply (foldM_writes _
      (fun t t' f' s' => t' = t /\ (f' < nfreqs)%nat /\ (s' < nstations)%nat));
      [| |exact Hsh|exact Hrun]].
  - intros t f s. rewrite Exists_seq. split.
    + intros (i & Hi & -> & ? & ?). done.
    + intros (? & ? & ?). exists t. done.
  - intros. apply _.
  - intros t a1 a2 Hsh1 Hrun1.
    eapply writes_iff; [|eapply (foldM_writes _
        (fun f t' f' s' => t' = t /\ f' = f /\ (s' < nstations)%nat));
        [| |exact Hsh1|exact Hrun1]].
    + intros t' f' s'. rewrite Exists_seq. split.
      * intros (i & Hi & -> & -> & ?). done.
      * intros (? & ? & ?). exists f'. done.
    + intros. apply _.
    + intros f a3 a4 Hsh3 Hrun3.
      eapply writes_iff; [|eapply (foldM_writes _
          (fun s t' f' s' => t' = t /\ f' = f /\ s' = s));
          [| |exact Hsh3|exact Hrun3]].
      * intros t' f' s'. rewrite Exists_seq. split.
        -- intros (i & Hi & -> & -> & ->). done.
        -- intros (? & ? & ?). exists s'. done.
      * intros. apply _.
      * intros s a5 a6 Hsh5 Hrun5. by apply writes_setitem.
Qed.

End copy_pixel_facts.

(** * The sampling loop *)
Section grid_sample_facts.
Implicit Types (h : hdu) (a vals weights : ndarray4) (t s d f : nat).

Lemma get4_Some_in_range a n0 n1 n2 n3 t s d f v :
  has_shape a -> shape4 a = (n0, n1, n2, n3) ->
  get4 a t s d f = Some v ->
  (t < n0)%nat /\ (s < n1)%nat /\ (d < n2)%nat /\ (f < n3)%nat.
Proof.
  unfold has_shape, get4. intros Hsh Heq Hget. rewrite Heq in Hsh.
  destruct Hsh as [H0 Hrows].
  destruct (cells4 a !! t) as [row|] eqn:Hrow; [simpl in Hget|done].
  pose proof (lookup_lt_Some _ _ _ Hrow) as Lt.
  apply (proj1 (Forall_lookup _ _) Hrows _ _) in Hrow as [H1 Hr].
  destruct (row !! s) as [r|] eqn:Hr'; [simpl in Hget|done].
  pose proof (lookup_lt_Some _ _ _ Hr') as Ls.
  apply (proj1 (Forall_lookup _ _) Hr _ _) in Hr' as [H2 Hq].
  destruct (r !! d) as [q|] eqn:Hq'; [simpl in Hget|done].
  pose proof (lookup_lt_Some _ _ _ Hq') as Ld.
  apply (proj1 (Forall_lookup _ _) Hq _ _) in Hq'.
  pose proof (lookup_lt_Some _ _ _ Hget) as Lf. lia.
Qed.

Lemma norm_index_nonneg n z j :
  0 <= z -> norm_index n z = Return j -> j = Z.to_nat z /\ z < Z.of_nat n.
Proof.
  unfold norm_index. intros Hz.
  destruct (_ && _) eqn:Hb.
  - intros Heq. injection Heq as <-.
    apply andb_prop in Hb as [_ Hb]. apply Z.ltb_lt in Hb. done.
  - destruct ((- Z.of_nat n <=? z) && (z <? 0)) eqn:Hb'; [|discriminate].
    apply andb_prop in Hb' as [_ Hb']. apply Z.ltb_lt in Hb'. lia.
Qed.

Lemma getitem5_Return data t f s y x v :
  0 <= y -> 0 <= x ->
  getitem5 data t f s y x = Return v ->
  v = at5 data t f s (Z.to_nat y) (Z.to_nat x) /\
  y < Z.of_nat (shape5 data).1.2 /\ x < Z.of_nat (shape5 data).2.
Proof.
  unfold getitem5. intros Hy Hx.
  destruct (shape5 data) as [[[[nt nf] ns] ny] nx]; simpl.
  destruct (norm_index nt _) as [t'|] eqn:Ht; [simpl|discriminate].
  destruct (norm_index nf _) as [f'|] eqn:Hf; [simpl|discriminate].
  destruct (norm_index ns _) as [s'|] eqn:Hs; [simpl|discriminate].
  destruct (norm_index ny _) as [y'|] eqn:Hy'; [simpl|discriminate].
  destruct (norm_index nx _) as [x'|] eqn:Hx'; [simpl|discriminate].
  intros [= <-].
  apply norm_index_nonneg in Ht as [-> _]; [|lia].
  apply norm_index_nonneg in Hf as [-> _]; [|lia].
  apply norm_index_nonneg in Hs as [-> _]; [|lia].
  apply norm_index_nonneg in Hy' as [-> ?]; [|lia].
  apply norm_index_nonneg in Hx' as [-> ?]; [|lia].
  by rewrite !Nat2Z.id.
Qed.

Lemma out_of_bounds_false nx ny x y :
  out_of_bounds nx ny x y = false ->
  0 <= x <= Z.of_nat nx /\ 0 <= y <= Z.of_nat ny.
Proof.
  unfold out_of_bounds. intros H.
  repeat (apply orb_false_elim in H as [H ?]).
  repeat match goal with
         | H : (_ <? _) = false |- _ => apply Z.ltb_ge in H
         | H : (_ >? _) = false |- _ => rewrite Z.gtb_ltb in H; apply Z.ltb_ge in H
         end.
  lia.
Qed.


(** One pass of the loop body over direction [d]. *)
Lemma sample_direction_spec h d ra dec vals weights vals' weights' n0 n1 n2 n3 :
  has_shape vals -> has_shape weights ->
  shape4 vals = (n0, n1, n2, n3) -> shape4 weights = (n0, n1, n2, n3) ->
  sample_direction h (d, (ra, dec)) (vals, weights) = Return (vals', weights') ->
  (has_shape vals' /\ has_shape weights' /\
   shape4 vals' = (n0, n1, n2, n3) /\ shape4 weights' = (n0, n1, n2, n3)) /\
  (forall t s d' f, d' <> d ->
     get4 vals' t s d' f = get4 vals t s d' f /\
     get4 weights' t s d' f = get4 weights t s d' f) /\
  exists x y, pixel_of h ra dec = Return (x, y) /\
    if out_of_bounds (nx_of h) (ny_of h) x y then
      forall t s f, (t < n0)%nat -> (s < n1)%nat -> (f < n3)%nat ->
        get4 vals' t s d f = Some 1%float /\ get4 weights' t s d f = Some 0%float
    else
      (forall t f s, (t < ntimes_of h)%nat -> (f < nfreqs_of h)%nat ->
                     (s < nstations_of h)%nat ->
         get4 vals' t s d f = Some (at5 (hdu_data h) t f s (Z.to_nat y) (Z.to_nat x))) /\
      weights' = weights.
Proof.
  intros Hshv Hshw Hsv Hsw. unfold sample_direction, nx_of, ny_of, ntimes_of, nfreqs_of,
    nstations_of.
  destruct (shape5 (hdu_data h)) as [[[[ntimes nfreqs] nstations] ny] nx] eqn:Hdata; simpl.
  destruct (pixel_of h ra dec) as [[x y]|] eqn:Hpix; [simpl|discriminate].
  destruct (out_of_bounds nx ny x y) eqn:Hoob.
  - destruct (set_dir_slice vals d 1) as [v1|] eqn:Hv1; [simpl|discriminate].
    destruct (set_dir_slice weights d 0) as [w1|] eqn:Hw1; [simpl|discriminate].
    intros [= <- <-].
    pose proof (set_dir_slice_Return _ _ _ _ Hv1) as (Hd & _ & _).
    rewrite Hsv in Hd; simpl in Hd.
    split; [|split].
    + split; [exact (set_dir_slice_has_shape _ _ _ _ Hshv Hv1)|].
      split; [exact (set_dir_slice_has_shape _ _ _ _ Hshw Hw1)|].
      by rewrite (set_dir_slice_shape _ _ _ _ Hv1), (set_dir_slice_shape _ _ _ _ Hw1).
    + intros t s d' f Hne.
      by rewrite (set_dir_slice_get_ne _ _ _ _ _ _ _ _ Hv1),
        (set_dir_slice_get_ne _ _ _ _ _ _ _ _ Hw1).
    + exists x, y. split; [done|]. rewrite Hoob. intros t s f Ht Hs Hf. split.
      * eapply set_dir_slice_get_eq; [done|]. by eapply get4_in_range.
      * eapply set_dir_slice_get_eq; [done|]. by eapply get4_in_range.
  - destruct (copy_pixel (hdu_data h) d y x vals) as [v1|] eqn:Hv1; [simpl|discriminate].
    intros [= <- <-].
    apply copy_pixel_writes in Hv1 as (Hs1 & Hsh1 & Hframe & Hset); [|done].
    rewrite Hdata in Hset; simpl in Hset.
    pose proof (out_of_bounds_false _ _ _ _ Hoob) as [Hx Hy].
    split; [|split].
    + repeat split; [done|done|congruence|done].
    + intros t s d' f Hne. split; [|done]. apply Hframe. tauto.
    + exists x, y. split; [done|]. rewrite Hoob. split; [|done].
      intros t f s Ht Hf Hs. destruct (Hset t f s) as (v & Hv & Hget); [done|].
      apply getitem5_Return in Hv as [-> _]; [done|lia|lia].
Qed.

(** The loop over the directions [k, k+1, ...] paired with [l]. *)
Lemma sample_loop_spec h n0 n1 n2 n3 (l : list (float * float)) :
  forall k vals weights vals' weights',
  has_shape vals -> has_shape weights ->
  shape4 vals = (n0, n1, n2, n3) -> shape4 weights = (n0, n1, n2, n3) ->
  foldM (sample_direction h) (zip (seq k (length l)) l) (vals, weights)
    = Return (vals', weights') ->
  (has_shape vals' /\ has_shape weights' /\
   shape4 vals' = (n0, n1, n2, n3) /\ shape4 weights' = (n0, n1, n2, n3)) /\
  (forall t s d f, (d < k \/ k + length l <= d)%nat ->
     get4 vals' t s d f = get4 vals t s d f /\
     get4 weights' t s d f = get4 weights t s d f) /\
  (forall i ra dec, l !! i = Some (ra, dec) ->
     exists x y, pixel_of h ra dec = Return (x, y) /\
       if out_of_bounds (nx_of h) (ny_of h) x y then
         forall t s f, (t < n0)%nat -> (s < n1)%nat -> (f < n3)%nat ->
           get4 vals' t s (k + i) f = Some 1%float /\
           get4 weights' t s (k + i) f = Some 0%float
       else
         (forall t f s, (t < ntimes_of h)%nat -> (f < nfreqs_of h)%nat ->
                        (s < nstations_of h)%nat ->
            get4 vals' t s (k + i) f
              = Some (at5 (hdu_data h) t f s (Z.to_nat y) (Z.to_nat x))) /\
         (forall t s f, get4 weights' t s (k + i) f = get4 weights t s (k + i) f)).
Proof.
  induction l as [|[ra0 dec0] l IH]; intros k vals weights vals' weights' Hshv Hshw Hsv Hsw.
  - simpl. intros [= <- <-]. split; [done|]. split; [done|]. intros i ra dec Hi. done.
  - change (zip (seq k (length ((ra0, dec0) :: l))) ((ra0, dec0) :: l))
      with ((k, (ra0, dec0)) :: zip (seq (S k) (length l)) l).
    rewrite foldM_cons.
    destruct (sample_direction h (k, (ra0, dec0)) (vals, weights)) as [[v1 w1]|] eqn:H1;
      [|discriminate].
    intros Hrest. simpl length.
    destruct (sample_direction_spec _ _ _ _ _ _ _ _ _ _ _ _ Hshv Hshw Hsv Hsw H1)
      as ((Hshv1 & Hshw1 & Hsv1 & Hsw1) & Hframe1 & x0 & y0 & Hpix0 & Hdone0).
    destruct (IH (S k) v1 w1 vals' weights' Hshv1 Hshw1 Hsv1 Hsw1 Hrest)
      as (Hshapes & Hframe & Hdone).
    split; [done|]. split.
    + intros t s d f Hd.
      destruct (Hframe t s d f) as [-> ->]; [lia|]. apply Hframe1. lia.
    + intros [|i] ra dec Hi; simpl in Hi.
      * injection Hi as -> ->. exists x0, y0. split; [done|].
        rewrite Nat.add_0_r.
        destruct (out_of_bounds (nx_of h) (ny_of h) x0 y0).
        -- intros t s f Ht Hs Hf. destruct (Hframe t s k f) as [-> ->]; [lia|].
           by apply Hdone0.
        -- destruct Hdone0 as [Hv ->]. split.
           ++ intros t f s Ht Hf Hs. destruct (Hframe t s k f) as [-> _]; [lia|].
              by apply Hv.
           ++ intros t s f. by destruct (Hframe t s k f) as [_ ->]; [lia|].
      * destruct (Hdone i ra dec Hi) as (x & y & Hpix & Hd). exists x, y.
        split; [done|]. replace (k + S i)%nat with (S k + i)%nat by lia.
        destruct (out_of_bounds (nx_of h) (ny_of h) x y); [done|].
        destruct Hd as [Hv Hw]. split; [done|].
        intros t s f. rewrite Hw. apply Hframe1. lia.
Qed.

(** The arrays [grid_sample] returns. *)
Lemma grid_sample_spec h ndirs ras decs vals weights :
  grid_sample h ndirs ras decs = Return (vals, weights) ->
  (has_shape vals /\ has_shape weights /\
   shape4 vals = (ntimes_of h, nstations_of h, ndirs, nfreqs_of h) /\
   shape4 weights = (ntimes_of h, nstations_of h, ndirs, nfreqs_of h)) /\
  (forall t s d f, (length (zip ras decs) <= d)%nat ->
     (t < ntimes_of h)%nat -> (s < nstations_of h)%nat -> (d < ndirs)%nat ->
     (f < nfreqs_of h)%nat ->
     get4 vals t s d f = Some 0%float /\ get4 weights t s d f = Some 1%float) /\
  (forall d ra dec, zip ras decs !! d = Some (ra, dec) ->
     exists x y, pixel_of h ra dec = Return (x, y) /\
       if out_of_bounds (nx_of h) (ny_of h) x y then
         forall t s f, (t < ntimes_of h)%nat -> (s < nstations_of h)%nat ->
                       (f < nfreqs_of h)%nat ->
           get4 vals t s d f = Some 1%float /\ get4 weights t s d f = Some 0%float
       else
         forall t f s, (t < ntimes_of h)%nat -> (f < nfreqs_of h)%nat ->
                       (s < nstations_of h)%nat ->
           get4 vals t s d f = Some (at5 (hdu_data h) t f s (Z.to_nat y) (Z.to_nat x)) /\
           get4 weights t s d f = Some 1%float).
Proof.
  assert (shape5 (hdu_data h)
            = (ntimes_of h, nfreqs_of h, nstations_of h, ny_of h, nx_of h)) as Hdata.
  { unfold ntimes_of, nfreqs_of, nstations_of, ny_of, nx_of.
    by destruct (shape5 (hdu_data h)) as [[[[? ?] ?] ?] ?]. }
  unfold grid_sample, enumerate. rewrite Hdata. cbv beta iota zeta.
  unfold np_ones, np_zeros. rewrite shape4_full4.
  intros Hrun.
  apply (sample_loop_spec h (ntimes_of h) (nstations_of h) ndirs (nfreqs_of h)) in Hrun
    as ((Hshv & Hshw & Hsv & Hsw) & Hframe & Hdone);
    [|apply has_shape_full4|apply has_shape_full4|apply shape4_full4|apply shape4_full4].
  split; [done|]. split.
  - intros t s d f Hd Ht Hs Hdn Hf.
    destruct (Hframe t s d f) as [-> ->]; [lia|].
    by rewrite !get4_full4.
  - intros d ra dec Hd. destruct (Hdone d ra dec Hd) as (x & y & Hpix & Hres).
    exists x, y. split; [done|]. change (0 + d)%nat with d in Hres.
    destruct (out_of_bounds (nx_of h) (ny_of h) x y); [done|].
    destruct Hres as [Hv Hw]. intros t f s Ht Hf Hs. split; [by apply Hv|].
    rewrite Hw.
    destruct (get4_Some_in_range _ _ _ _ _ _ _ _ _ _ Hshv Hsv (Hv t f s Ht Hf Hs))
      as (_ & _ & Hdn & _).
    by rewrite get4_full4.
Qed.

End grid_sample_facts.

(** * The whole operation *)
Section run_facts.
Implicit Types (obs : observation) (w : world) (h : hdu).

Lemma M_bind_Return {A B : Type} (m : M A) (k : A -> M B) w b w' :
  (m ≫= k) w = (Return b, w') ->
  exists a w1, m w = (Return a, w1) /\ k a w1 = (Return b, w').
Proof.
  unfold mbind, M_bind. destruct (m w) as [[a|e] w1]; [|discriminate].
  intros Hk. by exists a, w1.
Qed.

Lemma M_bind_step {A B : Type} (m : M A) (k : A -> M B) w a w1 :
  m w = (Return a, w1) -> (m ≫= k) w = k a w1.
Proof. unfold mbind, M_bind. by intros ->. Qed.

Lemma M_result_eta {A : Type} (r : outcome A * world) (o : outcome A) :
  r.1 = o -> r = (o, r.2).
Proof. destruct r as [o' w']. by intros <-. Qed.

Lemma lift_Return {A : Type} (o : outcome A) w a w' :
  lift o w = (Return a, w') -> o = Return a /\ w' = w.
Proof. unfold lift. by intros [= -> ->]. Qed.

Lemma header_get_Return h key v :
  header_get h key = Return v -> hdu_header h !! key = Some v.
Proof. unfold header_get. destruct (_ !! _); [|discriminate]. by intros [= ->]. Qed.

Lemma shape5_eq h :
  shape5 (hdu_data h) = (ntimes_of h, nfreqs_of h, nstations_of h, ny_of h, nx_of h).
Proof.
  unfold ntimes_of, nfreqs_of, nstations_of, ny_of, nx_of.
  by destruct (shape5 (hdu_data h)) as [[[[? ?] ?] ?] ?].
Qed.

(** The parset update touches neither the files nor the log. *)
Lemma update_parset_files path w r w' :
  update_parset path w = (r, w') -> files w' = files w /\ logged w' = logged w.
Proof.
  unfold update_parset, mbind, M_bind, parset_setitem, parset_contains, parset_append,
    set_parset; simpl.
  destruct (bool_decide _); simpl.
  - destruct (_ !! _) as [[]|]; simpl; by intros [= <- <-].
  - by intros [= <- <-].
Qed.

Lemma set_files_files fs w : files (set_files fs w) = fs.
Proof. done. Qed.

Lemma before_last_slash_shorter (p d : string) :
  before_last_slash p = Some d -> (String.length d < String.length p)%nat.
Proof.
  revert d. induction p as [|c rest IH]; intros d; simpl; [discriminate|].
  destruct (before_last_slash rest) as [d'|].
  - intros [= <-]. simpl. specialize (IH d' eq_refl). lia.
  - destruct (Ascii.eqb c (Ascii.ascii_of_nat 47)); [|discriminate].
    intros [= <-]. simpl. lia.
Qed.

(** Removing or writing the file at a path does not change whether its
    directory is there. *)
Lemma parent_exists_insert fs p o :
  o <> Directory -> fs !! p <> Some Directory ->
  parent_exists (<[p := o]> fs) p = parent_exists fs p.
Proof.
  intros Ho Hp. unfold parent_exists.
  destruct (before_last_slash p) as [d|] eqn:Hd; [|done].
  destruct d as [|c d]; [done|].
  apply before_last_slash_shorter in Hd.
  rewrite lookup_insert_ne; [done|]. intros ->. lia.
Qed.

Lemma parent_exists_delete fs p :
  parent_exists (delete p fs) p = parent_exists fs p.
Proof.
  unfold parent_exists.
  destruct (before_last_slash p) as [d|] eqn:Hd; [|done].
  destruct d as [|c d]; [done|].
  apply before_last_slash_shorter in Hd.
  rewrite lookup_delete_ne; [done|]. intros ->. lia.
Qed.

Lemma h5parm_do_Return {A : Type} (p : string) (op : h5parm -> outcome (A * h5parm))
  (w : world) (h : h5parm) (a : A) (h' : h5parm) :
  files w !! p = Some (H5File h) -> op h = Return (a, h') ->
  h5parm_do p op w = (Return a, set_files (<[p := H5File h']> (files w)) w).
Proof. intros Hp Hop. unfold h5parm_do. by rewrite Hp, Hop. Qed.

Lemma h5parm_write_Return (p : string) (op : h5parm -> outcome h5parm)
  (w : world) (h h' : h5parm) :
  files w !! p = Some (H5File h) -> op h = Return h' ->
  h5parm_write p op w = (Return tt, set_files (<[p := H5File h']> (files w)) w).
Proof.
  intros Hp Hop. unfold h5parm_write.
  apply (h5parm_do_Return p _ w h tt h' Hp). by rewrite Hop.
Qed.

Lemma h5parm_write_Raise (p : string) (op : h5parm -> outcome h5parm)
  (w : world) (h : h5parm) (e : exn) :
  files w !! p = Some (H5File h) -> op h = Raise e ->
  h5parm_write p op w = (Raise e, w).
Proof. intros Hp Hop. unfold h5parm_write, h5parm_do. by rewrite Hp, Hop. Qed.

(** The steps of lines 116 to 118: what is at the path is removed and an
    empty file created, or nothing is touched. *)
Lemma open_fresh_cases path w :
  (can_create w path /\
   forall (B : Type) (k : M B),
     (present ← os_path_exists path;
      (if present : bool then os_remove path else mret tt);;
      h5parm_open path;; k) w
     = k (set_files (<[path := H5File []]> (files w)) w)) \/
  (~ can_create w path /\
   exists e, forall (B : Type) (k : M B),
     (present ← os_path_exists path;
      (if present : bool then os_remove path else mret tt);;
      h5parm_open path;; k) w
     = (Raise e, w)).
Proof.
  unfold can_create, mbind, M_bind, os_path_exists, os_remove, h5parm_open, at_path,
    mret, M_ret.
  cbv beta iota.
  destruct (parent_exists (files w) path) eqn:Hpar.
  2:{ right. split; [by intros (_ & _ & ?)|]. eexists. intros B k.
      cbn [andb]. rewrite bool_decide_eq_false_2 by (by intros [? ?]).
      cbv beta iota. rewrite Hpar. reflexivity. }
  destruct (names_a_file path) eqn:Hname.
  2:{ right. split; [by intros (? & _)|]. eexists. intros B k.
      cbn [andb]. rewrite bool_decide_eq_false_2 by (by intros [? ?]).
      cbv beta iota. rewrite ?Hpar, ?Hname. reflexivity. }
  cbn [andb].
  destruct (files w !! path) as [o|] eqn:Hp.
  - assert (o = Directory \/ o <> Directory) as [->|Ho]
      by (destruct o; (by left) || (by right)).
    { right. split; [by intros (_ & ? & _)|]. eexists. intros B k.
      rewrite bool_decide_eq_true_2 by eauto. cbv beta iota.
      rewrite ?Hpar, ?Hname, ?Hp. reflexivity. }
    assert (forall X (a b : X),
               match o with Directory => a | _ => b end = b) as Hm
      by (by destruct o).
    left. split; [split; [done|split; [congruence|done]]|]. intros B k.
    rewrite bool_decide_eq_true_2 by eauto. cbv beta iota.
    rewrite ?Hpar, ?Hname. cbn [andb]. rewrite ?Hp, Hm. cbv beta iota.
    rewrite ?set_files_files, ?parent_exists_delete, ?Hpar, ?Hname.
    rewrite lookup_delete_eq. cbn [andb negb]. cbv iota beta.
    by rewrite insert_delete_eq.
  - left. split; [split; [done|split; [congruence|done]]|]. intros B k.
    rewrite bool_decide_eq_false_2 by (by intros [? ?]). cbv beta iota.
    by rewrite ?Hpar, ?Hname, ?Hp.
Qed.

(** Every way the writing of the table can end. *)
Lemma persist_table_cases obs path fits names ras decs times freqs vals weights w :
  (~ can_create w path /\
   exists e, persist_table obs path fits names ras decs times freqs vals weights w
             = (Raise e, w)) \/
  (can_create w path /\
   (zip (stations obs) (stationpos obs) = [] \/ zip names (zip ras decs) = []) /\
   exists partial,
     unfinished partial /\
     persist_table obs path fits names ras decs times freqs vals weights w
     = (Raise ValueError, set_files (<[path := H5File partial]> (files w)) w)) \/
  (can_create w path /\
   zip (stations obs) (stationpos obs) <> [] /\ zip names (zip ras decs) <> [] /\
   persist_table obs path fits names ras decs times freqs vals weights w
   = (Return tt,
      set_files (<[path := H5File (table_of obs path fits names ras decs
                                     times freqs vals weights)]> (files w)) w)).
Proof.
  unfold persist_table. cbv zeta.
  destruct (open_fresh_cases path w) as [[Hcan Hk]|[Hno [e Hk]]].
  2:{ left. split; [done|]. exists e. apply Hk. }
  right. rewrite Hk. clear Hk.
  set (w1 := set_files (<[path := H5File []]> (files w)) w).
  assert (files w1 !! path = Some (H5File [])) as H1 by apply lookup_insert_eq.
  rewrite (M_bind_step _ _ _ _ _
             (h5parm_do_Return path (makeSolset "sol000") w1 [] "sol000"%string _ H1 eq_refl)).
  match goal with |- context [(_ ;; _) ?w2] => set (w2' := w2) end.
  assert (exists ho2, files w2' !! path = Some (H5File ho2)) as [ho2 H2]
    by (eexists; apply lookup_insert_eq).
  erewrite M_bind_step; [|eapply h5parm_write_Return; [exact H2|reflexivity]].
  match goal with |- context [(_ ;; _) ?w3] => set (w3' := w3) end.
  assert (exists ho3, files w3' !! path = Some (H5File ho3)) as [ho3 H3]
    by (eexists; apply lookup_insert_eq).
  destruct (zip (stations obs) (stationpos obs)) as [|rowA rowsA] eqn:HA.
  { left. split; [done|]. split; [by left|]. eexists. split; [|
    unfold mbind at 1, M_bind at 1;
    (erewrite h5parm_write_Raise; [|exact H3|reflexivity]);
    unfold w3', w2', w1; unfold set_files; simpl;
    by rewrite !insert_insert_eq].
    unfold w3', w2', w1 in *. unfold set_files in *; simpl in *.
    rewrite lookup_insert_eq in H2. injection H2 as <-.
    rewrite lookup_insert_eq in H3. injection H3 as <-.
    by eexists _, _. }
  erewrite M_bind_step; [|eapply h5parm_write_Return; [exact H3|reflexivity]].
  match goal with |- context [(_ ;; _) ?w4] => set (w4' := w4) end.
  assert (exists ho4, files w4' !! path = Some (H5File ho4)) as [ho4 H4]
    by (eexists; apply lookup_insert_eq).
  destruct (zip names (zip ras decs)) as [|rowS rowsS] eqn:HS.
  { left. split; [done|]. split; [by right|]. eexists. split; [|
    unfold mbind at 1, M_bind at 1;
    (erewrite h5parm_write_Raise; [|exact H4|reflexivity]);
    unfold w4', w3', w2', w1; unfold set_files; simpl;
    by rewrite !insert_insert_eq].
    unfold w4', w3', w2', w1 in *. unfold set_files in *; simpl in *.
    rewrite lookup_insert_eq in H2. injection H2 as <-.
    rewrite lookup_insert_eq in H3. injection H3 as <-.
    rewrite lookup_insert_eq in H4. injection H4 as <-.
    by eexists _, _. }
  right. split; [done|]. split; [done|]. split; [done|].
  erewrite M_bind_step; [|eapply h5parm_write_Return; [exact H4|reflexivity]].
  match goal with |- context [(_ ;; _) ?w5] => set (w5' := w5) end.
  assert (exists ho5, files w5' !! path = Some (H5File ho5)) as [ho5 H5]
    by (eexists; apply lookup_insert_eq).
  erewrite M_bind_step; [|eapply h5parm_write_Return; [exact H5|reflexivity]].
  unfold h5parm_close, mret, M_ret. f_equal.
  unfold w5', w4', w3', w2', w1 in *. unfold set_files in *; simpl in *.
  rewrite !insert_insert_eq.
  rewrite lookup_insert_eq in H2. injection H2 as <-.
  rewrite lookup_insert_eq in H3. injection H3 as <-.
  rewrite lookup_insert_eq in H4. injection H4 as <-.
  rewrite lookup_insert_eq in H5. injection H5 as <-.
  unfold table_of. rewrite HA, HS. reflexivity.
Qed.

(** Every way the 'fits' branch can complete without an exception. *)
Lemma fits_method_Return obs path fits w r w' :
  fits_method obs path fits w = (Return r, w') ->
  exists name h,
    fits = Some name /\ files w !! name = Some (FitsFile h) /\
    ((nstations_of h <> length (stations obs) /\ r = Some 1 /\
      files w' = files w /\ parset_parameters w' = parset_parameters w /\
      logged w' = logged w ++
        [("ERROR"%string,
          "Number of stations in input FITS cube does not match that in the input MS"%string)])
     \/
     (nstations_of h = length (stations obs) /\ r = None /\
      exists vals weights t_ref t_del f_ref f_del,
        grid_sample h (length (get_patch_names obs))
          (get_patch_coords obs).1 (get_patch_coords obs).2 = Return (vals, weights) /\
        hdu_header h !! "CRVAL4"%string = Some t_ref /\
        hdu_header h !! "CDELT4"%string = Some t_del /\
        hdu_header h !! "CRVAL3"%string = Some f_ref /\
        hdu_header h !! "CDELT3"%string = Some f_del /\
        w' = set_files
               (<[path := H5File (tec_file obs h path name vals weights
                                    t_ref t_del f_ref f_del)]> (files w)) w)).
Proof.
  unfold fits_method. destruct (get_patch_coords obs) as [ras decs] eqn:Hcoords.
  intros Hrun. apply M_bind_Return in Hrun as (h & w1 & Hopen & Hrun).
  unfold pyfits_open in Hopen. destruct fits as [name|]; [|discriminate].
  destruct (files w !! name) as [[h0| | |]|] eqn:Hfile; try discriminate.
  injection Hopen as -> <-. exists name, h. split; [done|]. split; [done|].
  rewrite (shape5_eq h) in Hrun. cbv beta iota zeta in Hrun.
  destruct (nstations_of h =? length (stations obs))%nat eqn:Hn; simpl negb in Hrun;
    cbv iota in Hrun.
  - apply Nat.eqb_eq in Hn. right. split; [done|].
    apply M_bind_Return in Hrun as ([vals weights] & w1 & Hs & Hrun).
    apply lift_Return in Hs as [Hs ->].
    apply M_bind_Return in Hrun as (t_ref & w1 & Ht & Hrun).
    apply lift_Return in Ht as [Ht%header_get_Return ->].
    apply M_bind_Return in Hrun as (t_del & w1 & Ht' & Hrun).
    apply lift_Return in Ht' as [Ht'%header_get_Return ->].
    apply M_bind_Return in Hrun as (f_ref & w1 & Hf & Hrun).
    apply lift_Return in Hf as [Hf%header_get_Return ->].
    apply M_bind_Return in Hrun as (f_del & w1 & Hf' & Hrun).
    apply lift_Return in Hf' as [Hf'%header_get_Return ->].
    assert (r = None /\
            w' = set_files
                   (<[path := H5File (tec_file obs h path name vals weights
                                        t_ref t_del f_ref f_del)]> (files w)) w) as [-> ->].
    { clear Hs. apply M_bind_Return in Hrun as ([] & w2 & Hper & Hrun).
      unfold mret, M_ret in Hrun. injection Hrun as <- <-.
      match type of Hper with
      | persist_table _ _ _ _ _ _ ?ts ?fs _ _ _ = _ =>
          destruct (persist_table_cases obs path (Some name) (get_patch_names obs)
                      ras decs ts fs vals weights w)
            as [[_ [e He]]|[(_ & _ & p & _ & He)|(_ & _ & _ & He)]]
      end; rewrite He in Hper; try discriminate.
      injection Hper as <-. split; [done|].
      unfold tec_file, table_of, directions. by rewrite Hcoords. }
    split; [done|]. by exists vals, weights, t_ref, t_del, f_ref, f_del.
  - apply Nat.eqb_neq in Hn. left. split; [done|].
    unfold mbind, M_bind, logging_error, mret, M_ret in Hrun.
    by injection Hrun as <- <-.
Qed.

End run_facts.

(** * Properties of the operation *)
Import Examples.

Section run_fits.
Implicit Types (obs : observation) (w : world) (h : hdu).

(** A run in 'fits' mode that returns status 0 opened the cube, sampled
    it, and left the new table at the output path. *)
Lemma run_fits_Return obs path fits w w' :
  run obs "fits" path fits w = (Return 0, w') ->
  exists name h vals weights t_ref t_del f_ref f_del,
    fits = Some name /\ files w !! name = Some (FitsFile h) /\
    nstations_of h = length (stations obs) /\
    grid_sample h (length (get_patch_names obs))
      (get_patch_coords obs).1 (get_patch_coords obs).2 = Return (vals, weights) /\
    hdu_header h !! "CRVAL4"%string = Some t_ref /\
    hdu_header h !! "CDELT4"%string = Some t_del /\
    hdu_header h !! "CRVAL3"%string = Some f_ref /\
    hdu_header h !! "CDELT3"%string = Some f_del /\
    files w' = <[path := H5File (tec_file obs h path name vals weights
                                   t_ref t_del f_ref f_del)]> (files w).
Proof.
  unfold run. change (String.eqb "fits" "fits") with true. cbv iota.
  intros Hrun. apply M_bind_Return in Hrun as (r & w1 & Hfits & Hrun).
  apply fits_method_Return in Hfits as (name & h & -> & Hfile & Hcases).
  destruct Hcases as [(_ & -> & _)|(Hn & -> & Hok)].
  - discriminate Hrun.
  - destruct Hok as (vals & weights & t_ref & t_del & f_ref & f_del &
                     Hs & Ht & Ht' & Hf & Hf' & ->).
    apply M_bind_Return in Hrun as ([] & w2 & Hup & Hret).
    injection Hret as <-. apply update_parset_files in Hup as [Hfiles _].
    exists name, h, vals, weights, t_ref, t_del, f_ref, f_del.
    by rewrite Hfiles.
Qed.

Lemma lookup_soltab_tec_file obs h path name vals weights t_ref t_del f_ref f_del w' fs :
  files w' = <[path := H5File (tec_file obs h path name vals weights
                                 t_ref t_del f_ref f_del)]> fs ->
  lookup_soltab w' path "sol000" "tec000"
  = Some {| soltype := "tec";
            axesNames := ["time"; "ant"; "dir"; "freq"]%string;
            time_axis := linear_axis t_ref t_del (ntimes_of h);
            ant_axis := stations obs;
            dir_axis := get_patch_names obs;
            freq_axis := linear_axis f_ref f_del (nfreqs_of h);
            st_vals := vals; st_weights := weights;
            history := [create_entry path name] |}.
Proof.
  intros Hfiles. unfold lookup_soltab. by rewrite Hfiles, lookup_insert_eq.
Qed.



End run_fits.

(** C4: in 'fits' mode, when the cube's antenna count differs from the
    number of stations of the observation, [run] returns status 1, and
    the files and the parset are exactly as before (only the error is
    logged). *)
Theorem run_station_mismatch (obs : observation) (path name : string) (h : hdu) (w : world) :
  files w !! name = Some (FitsFile h) ->
  nstations_of h <> length (stations obs) ->
  exists w',
    run obs "fits" path (Some name) w = (Return 1, w') /\
    files w' = files w /\
    parset_parameters w' = parset_parameters w.
Proof.
  intros Hfile Hn. unfold run. change (String.eqb "fits" "fits") with true. cbv iota.
  unfold fits_method. destruct (get_patch_coords obs) as [ras decs].
  assert (pyfits_open (Some name) w = (Return h, w)) as Hopen.
  { unfold pyfits_open. by rewrite Hfile. }
  erewrite M_bind_step by (rewrite (M_bind_step _ _ _ _ _ Hopen); rewrite (shape5_eq h);
    cbv beta iota zeta; apply Nat.eqb_neq in Hn; rewrite Hn; reflexivity).
  simpl. eauto.
Qed.

Lemma run_station_mismatch_witness :
  exists w',
    run obs_three_stations "fits" "out.h5" (Some "cube.fits"%string) world_prior
      = (Return 1, w') /\
    files w' = files world_prior /\
    parset_parameters w' = parset_parameters world_prior.
Proof.
  apply (run_station_mismatch obs_three_stations "out.h5" "cube.fits" cubeA world_prior).
  - reflexivity.
  - vm_compute. lia.
Defined.

(** C6: the parset update appends "tec" to an existing list of
    correction steps, keeping its entries in order, and creates the
    one-element list when the key is absent. *)
Theorem update_parset_steps (path : string) (w : world) :
  (forall l, parset_parameters w !! "predict.applycal.steps"%string = Some (PList l) ->
     exists w', update_parset path w = (Return tt, w') /\
       parset_parameters w' !! "predict.applycal.steps"%string
         = Some (PList (l ++ ["tec"%string]))) /\
  (parset_parameters w !! "predict.applycal.steps"%string = None ->
     exists w', update_parset path w = (Return tt, w') /\
       parset_parameters w' !! "predict.applycal.steps"%string
         = Some (PList ["tec"%string])).
Proof.
  split.
  - intros l Hl.
    unfold update_parset, mbind, M_bind, parset_setitem, parset_contains, parset_append,
      set_parset; simpl.
    rewrite lookup_insert_ne by (by apply String.eqb_neq). rewrite Hl.
    rewrite bool_decide_eq_true_2 by eauto. simpl.
    rewrite lookup_insert_ne by (by apply String.eqb_neq). rewrite Hl.
    eexists. split; [done|]. simpl.
    rewrite !lookup_insert_ne by (by apply String.eqb_neq). by rewrite lookup_insert_eq.
  - intros Hl.
    unfold update_parset, mbind, M_bind, parset_setitem, parset_contains, parset_append,
      set_parset; simpl.
    rewrite lookup_insert_ne by (by apply String.eqb_neq). rewrite Hl.
    rewrite bool_decide_eq_false_2 by (intros [? ?]; done). simpl.
    eexists. split; [done|]. simpl.
    rewrite !lookup_insert_ne by (by apply String.eqb_neq). by rewrite lookup_insert_eq.
Qed.

Lemma update_parset_steps_witness :
  (exists w', update_parset "out.h5" world_prior = (Return tt, w') /\
     parset_parameters w' !! "predict.applycal.steps"%string
       = Some (PList ["beam"; "tec"]%string)) /\
  (exists w', update_parset "out.h5" world0 = (Return tt, w') /\
     parset_parameters w' !! "predict.applycal.steps"%string
       = Some (PList ["tec"%string])).
Proof.
  split.
  - apply (proj1 (update_parset_steps "out.h5" world_prior) ["beam"%string]).
    reflexivity.
  - apply (proj2 (update_parset_steps "out.h5" world0)). reflexivity.
Defined.





(** C9: after a successful run in 'fits' mode the output path holds
    exactly the table of this run (one solution set [sol000] with the
    solution table [tec000], the antenna and source tables as their
    columns store them - names cut to 16 and 128 characters, positions
    and directions in single precision - and one history entry),
    whatever was at the path before; every other path is untouched. *)
Theorem run_fits_overwrites (obs : observation) (path name : string) (h : hdu)
    (w w' : world) :
  files w !! name = Some (FitsFile h) ->
  run obs "fits" path (Some name) w = (Return 0, w') ->
  exists st,
    files w' !! path
      = Some (H5File [("sol000"%string,
                       {| soltabs := [("tec000"%string, st)];
                          antenna := antenna_row <$> zip (stations obs) (stationpos obs);
                          source := source_row <$>
                                      zip (get_patch_names obs) (directions obs) |})]) /\
    soltype st = "tec"%string /\
    axesNames st = ["time"; "ant"; "dir"; "freq"]%string /\
    ant_axis st = stations obs /\
    dir_axis st = get_patch_names obs /\
    grid_sample h (length (get_patch_names obs))
      (get_patch_coords obs).1 (get_patch_coords obs).2
      = Return (st_vals st, st_weights st) /\
    history st = [create_entry path name] /\
    forall p, p <> path -> files w' !! p = files w !! p.
Proof.
  intros Hfile Hrun.
  apply run_fits_Return in Hrun
    as (name' & h' & vals & weights & t_ref & t_del & f_ref & f_del &
        [= <-] & Hfile' & _ & Hs & _ & _ & _ & _ & Hfiles).
  rewrite Hfile in Hfile'. injection Hfile' as <-.
  eexists. rewrite Hfiles, lookup_insert_eq. unfold tec_file.
  split; [reflexivity|]. simpl. repeat (split; [done|]).
  intros p Hp. by rewrite lookup_insert_ne.
Qed.

Lemma run_fits_overwrites_witness :
  exists st,
    files (run obsA "fits" "out.h5" (Some "cube.fits"%string) world_prior).2
      !! "out.h5"%string
      = Some (H5File [("sol000"%string,
                       {| soltabs := [("tec000"%string, st)];
                          antenna := antenna_row <$> zip (stations obsA) (stationpos obsA);
                          source := source_row <$>
                                      zip (get_patch_names obsA) (directions obsA) |})]) /\
    soltype st = "tec"%string /\
    axesNames st = ["time"; "ant"; "dir"; "freq"]%string /\
    ant_axis st = stations obsA /\
    dir_axis st = get_patch_names obsA /\
    grid_sample cubeA (length (get_patch_names obsA))
      (get_patch_coords obsA).1 (get_patch_coords obsA).2
      = Return (st_vals st, st_weights st) /\
    history st = [create_entry "out.h5" "cube.fits"] /\
    forall p, p <> "out.h5"%string ->
      files (run obsA "fits" "out.h5" (Some "cube.fits"%string) world_prior).2 !! p
      = files world_prior !! p.
Proof.
  apply (run_fits_overwrites obsA "out.h5" "cube.fits" cubeA world_prior).
  - reflexivity.
  - apply M_result_eta. vm_compute. reflexivity.
Defined.

(** C10: in 'fits' mode the value and weight arrays written with the
    table have the same shape, times by stations by directions by
    frequencies, and their rows have those lengths; every weight is 0
    or 1; a weight at direction [d] is 0 exactly when [d] took the
    flagging branch, and then every weight of direction [d] is 0. *)
Theorem run_fits_weights (obs : observation) (path name : string) (h : hdu)
    (w w' : world) :
  files w !! name = Some (FitsFile h) ->
  run obs "fits" path (Some name) w = (Return 0, w') ->
  exists st,
    lookup_soltab w' path "sol000" "tec000" = Some st /\
    shape4 (st_vals st)
      = (ntimes_of h, nstations_of h, length (get_patch_names obs), nfreqs_of h) /\
    shape4 (st_weights st) = shape4 (st_vals st) /\
    has_shape (st_vals st) /\ has_shape (st_weights st) /\
    forall t s d f,
      (t < ntimes_of h)%nat -> (s < nstations_of h)%nat ->
      (d < length (get_patch_names obs))%nat -> (f < nfreqs_of h)%nat ->
      exists wt,
        get4 (st_weights st) t s d f = Some wt /\
        (wt = 0%float \/ wt = 1%float) /\
        (wt = 0%float <-> flagged h (directions obs) d) /\
        (flagged h (directions obs) d ->
         forall t' s' f', (t' < ntimes_of h)%nat -> (s' < nstations_of h)%nat ->
                          (f' < nfreqs_of h)%nat ->
           get4 (st_weights st) t' s' d f' = Some 0%float).
Proof.
  intros Hfile Hrun.
  apply run_fits_Return in Hrun
    as (name' & h' & vals & weights & t_ref & t_del & f_ref & f_del &
        [= <-] & Hfile' & _ & Hs & _ & _ & _ & _ & Hfiles).
  rewrite Hfile in Hfile'. injection Hfile' as <-.
  eexists. split; [by eapply lookup_soltab_tec_file|]. simpl.
  apply grid_sample_spec in Hs as ((Hshv & Hshw & Hsv & Hsw) & Hrest & Hdirs).
  split; [done|]. split; [congruence|]. split; [done|]. split; [done|].
  intros t s d f Ht Hs Hd Hf. fold (directions obs) in Hrest, Hdirs.
  destruct (directions obs !! d) as [[ra dec]|] eqn:Hlook.
  - destruct (Hdirs d ra dec Hlook) as (x & y & Hpix & Hres).
    destruct (out_of_bounds (nx_of h) (ny_of h) x y) eqn:Hoob.
    + assert (flagged h (directions obs) d) as Hflag by (by exists ra, dec, x, y).
      exists 0%float. split; [by apply Hres|]. split; [by left|]. split; [done|].
      intros _ t' s' f' Ht' Hs' Hf'. by apply Hres.
    + assert (~ flagged h (directions obs) d) as Hflag.
      { intros (ra' & dec' & x' & y' & Hlook' & Hpix' & Hoob').
        rewrite Hlook in Hlook'. injection Hlook' as <- <-.
        rewrite Hpix in Hpix'. injection Hpix' as <- <-. congruence. }
      exists 1%float. split; [by apply Hres|]. split; [by right|].
      split; [|done]. split; [|done]. intros Heq. by destruct zero_ne_one.
  - assert (~ flagged h (directions obs) d) as Hflag.
    { intros (ra' & dec' & x' & y' & Hlook' & _). congruence. }
    apply lookup_ge_None in Hlook.
    exists 1%float. split; [by apply Hrest|]. split; [by right|].
    split; [|done]. split; [|done]. intros Heq. by destruct zero_ne_one.
Qed.

Lemma run_fits_weights_witness :
  exists st,
    lookup_soltab (run obsA "fits" "out.h5" (Some "cube.fits"%string) world_prior).2
      "out.h5" "sol000" "tec000" = Some st /\
    shape4 (st_vals st)
      = (ntimes_of cubeA, nstations_of cubeA, length (get_patch_names obsA),
         nfreqs_of cubeA) /\
    shape4 (st_weights st) = shape4 (st_vals st) /\
    has_shape (st_vals st) /\ has_shape (st_weights st) /\
    forall t s d f,
      (t < ntimes_of cubeA)%nat -> (s < nstations_of cubeA)%nat ->
      (d < length (get_patch_names obsA))%nat -> (f < nfreqs_of cubeA)%nat ->
      exists wt,
        get4 (st_weights st) t s d f = Some wt /\
        (wt = 0%float \/ wt = 1%float) /\
        (wt = 0%float <-> flagged cubeA (directions obsA) d) /\
        (flagged cubeA (directions obsA) d ->
         forall t' s' f', (t' < ntimes_of cubeA)%nat -> (s' < nstations_of cubeA)%nat ->
                          (f' < nfreqs_of cubeA)%nat ->
           get4 (st_weights st) t' s' d f' = Some 0%float).
Proof.
  apply (run_fits_weights obsA "out.h5" "cube.fits" cubeA world_prior).
  - reflexivity.
  - apply M_result_eta. vm_compute. reflexivity.
Defined.

(** Any method string other than 'fits' and 'wave' runs neither branch:
    the parset is updated and the status is 0. *)
Lemma run_other_method (obs : observation) (method path : string) (fits : option string)
    (w : world) :
  method <> "fits"%string -> method <> "wave"%string ->
  run obs method path fits w = (update_parset path;; mret 0) w.
Proof.
  intros Hf Hw. unfold run.
  apply String.eqb_neq in Hf, Hw. rewrite Hf, Hw. reflexivity.
Qed.

(** C1, on the method string 'tid' that the docstring of [run] names:
    the operation reports nothing, returns status 0, and has already
    pointed the parset at the output file, which it never wrote. *)
Theorem run_tid_returns_success :
  (run obsA "tid" "out.h5" None world0).1 = Return 0 /\
  logged (run obsA "tid" "out.h5" None world0).2 = [] /\
  files (run obsA "tid" "out.h5" None world0).2 = files world0 /\
  parset_parameters world0 !! "predict.applycal.parmdb"%string = None /\
  parset_parameters (run obsA "tid" "out.h5" None world0).2
    !! "predict.applycal.parmdb"%string = Some (PStr "out.h5") /\
  parset_parameters (run obsA "tid" "out.h5" None world0).2
    !! "predict.applycal.steps"%string = Some (PList ["tec"%string]).
Proof. repeat split; vm_compute; reflexivity. Qed.

(** C2, on a direction whose pixel is one column past the last
    ([x = nx], outside [0, nx)): line 97 does not flag it, the lookup
    of line 104 raises [IndexError], and the run ends there with no
    table written. *)
Theorem run_edge_pixel_raises :
  directions obs_edge !! 0%nat = Some (5%float, 0%float) /\
  pixel_of cubeA 5 0 = Return (5, 0) /\
  nx_of cubeA = 5%nat /\
  out_of_bounds (nx_of cubeA) (ny_of cubeA) 5 0 = false /\
  (run obs_edge "fits" "out.h5" (Some "cube.fits"%string) world0).1 = Raise IndexError /\
  files (run obs_edge "fits" "out.h5" (Some "cube.fits"%string) world0).2
    !! "out.h5"%string = None.
Proof. repeat split; vm_compute; reflexivity. Qed.

(** The part of the flagging that the test of line 97 does reach: a
    direction whose pixel lies strictly past the far edge, or before
    the near one, gets value 1.0 and weight 0 everywhere. *)
Lemma run_fits_flagged_values (obs : observation) (path name : string) (h : hdu)
    (w w' : world) (d : nat) :
  files w !! name = Some (FitsFile h) ->
  run obs "fits" path (Some name) w = (Return 0, w') ->
  flagged h (directions obs) d ->
  exists st,
    lookup_soltab w' path "sol000" "tec000" = Some st /\
    forall t s f, (t < ntimes_of h)%nat -> (s < nstations_of h)%nat ->
                  (f < nfreqs_of h)%nat ->
      get4 (st_vals st) t s d f = Some 1%float /\
      get4 (st_weights st) t s d f = Some 0%float.
Proof.
  intros Hfile Hrun (ra & dec & x & y & Hlook & Hpix & Hoob).
  apply run_fits_Return in Hrun
    as (name' & h' & vals & weights & t_ref & t_del & f_ref & f_del &
        [= <-] & Hfile' & _ & Hs & _ & _ & _ & _ & Hfiles).
  rewrite Hfile in Hfile'. injection Hfile' as <-.
  eexists. split; [by eapply lookup_soltab_tec_file|]. simpl.
  apply grid_sample_spec in Hs as (_ & _ & Hdirs).
  destruct (Hdirs d ra dec Hlook) as (x' & y' & Hpix' & Hres).
  rewrite Hpix in Hpix'. injection Hpix' as <- <-.
  by rewrite Hoob in Hres.
Qed.

(** The worker of the first pool never returns: a declination out of
    range stops it on line 38, and any other on line 39. *)
Lemma getaltaz_raises (radec : float * float) :
  exists e, _getaltaz radec = Raise e.
Proof.
  unfold _getaltaz, skycoord.
  destruct ((radec.2 <? -90) || (90 <? radec.2))%float; eexists; reflexivity.
Qed.

(** Lines 138 to 161 end in an exception and touch nothing; without a
    direction no worker runs and line 161 is reached. *)
Lemma wave_method_raises (obs : observation) (w : world) :
  exists e, wave_method obs w = (Raise e, w) /\
            (directions obs = [] -> e = ZeroDivisionError).
Proof.
  unfold wave_method, directions.
  destruct (get_patch_coords obs) as [ras decs]; simpl.
  destruct (zip ras decs) as [|radec l].
  - exists ZeroDivisionError. by split.
  - destruct (getaltaz_raises radec) as [e He]. exists e. split; [|done].
    unfold mbind at 1, M_bind at 1, lift, pool_map. simpl map_outcome.
    by rewrite He.
Qed.




Section truncation.

Lemma quot_truncates (a b : Z) :
  0 < b ->
  Z.abs (Z.quot a b) * b <= Z.abs a /\ Z.abs a < (Z.abs (Z.quot a b) + 1) * b /\
  0 <= Z.quot a b * a.
Proof.
  intros Hb.
  assert (forall c, 0 <= c ->
            0 <= Z.quot c b /\ Z.quot c b * b <= c /\ c < (Z.quot c b + 1) * b) as Hpos.
  { intros c Hc. rewrite Z.quot_div_nonneg by lia.
    pose proof (Z.div_mod c b ltac:(lia)) as Hdm.
    pose proof (Z.mod_pos_bound c b Hb) as Hm.
    pose proof (Z.div_pos c b Hc Hb). nia. }
  destruct (Z.le_gt_cases 0 a) as [Ha|Ha].
  - destruct (Hpos a Ha) as (H0 & H1 & H2).
    rewrite (Z.abs_eq a), (Z.abs_eq (Z.quot a b)) by lia. nia.
  - destruct (Hpos (- a) ltac:(lia)) as (H0 & H1 & H2).
    rewrite Z.quot_opp_l in H0, H1, H2 by lia.
    rewrite (Z.abs_neq a), (Z.abs_neq (Z.quot a b)) by lia. nia.
Qed.

Lemma truncation_of_inject (z : Z) : truncation_of (inject_Z z) z.
Proof.
  unfold truncation_of, Qle, Qlt, Qabs, inject_Z; simpl.
  rewrite !Z.mul_1_r. split; [lia|]. split; [lia|]. nia.
Qed.

Lemma truncation_of_quot (a : Z) (p : positive) :
  truncation_of (Qmake a p) (Z.quot a (Z.pos p)).
Proof.
  destruct (quot_truncates a (Z.pos p) ltac:(lia)) as (H1 & H2 & H3).
  unfold truncation_of, Qle, Qlt, Qabs, inject_Z; simpl.
  rewrite !Z.mul_1_r. split; [lia|]. split; [lia|]. lia.
Qed.

(** [int] of a float drops the fraction of its exact value. *)
Lemma py_int_truncation (v : float) (z : Z) :
  py_int v = Return z ->
  exists q, float_value v = Some q /\ truncation_of q z.
Proof.
  unfold py_int, float_value. destruct (Prim2SF v) as [s|s| |s m e]; try discriminate.
  - intros [= <-]. exists 0%Q. split; [done|]. apply (truncation_of_inject 0).
  - destruct (0 <=? e) eqn:He.
    + intros [= <-]. eexists. split; [done|]. apply truncation_of_inject.
    + intros [= <-]. eexists. split; [done|].
      apply Z.leb_gt in He.
      assert (0 < 2 ^ (- e)) as Hp by (apply Z.pow_pos_nonneg; lia).
      rewrite <- (Z2Pos.id (2 ^ (- e)) Hp) at 2. apply truncation_of_quot.
Qed.

End truncation.

(** C3 as stated fails: the fractional column 3.7 is taken to pixel 3,
    where rounding to the nearest integer gives 4, and the value
    written for that direction is the cube's value at column 3. *)
Lemma pixel_of_3_7_is_not_4 :
  directions obs37 !! 0%nat = Some (3.7%float, 0%float) /\
  wcs_world2pix cubeA 3.7 0 = (3.7%float, 0%float) /\
  spec_round_nearest 3.7 = Return 4 /\
  pixel_of cubeA 3.7 0 = Return (3, 0) /\
  pixel_of cubeA 3.7 0 <> Return (4, 0) /\
  exists st,
    lookup_soltab (run obs37 "fits" "out.h5" (Some "cube.fits"%string) world0).2
      "out.h5" "sol000" "tec000" = Some st /\
    get4 (st_vals st) 0 0 0 0 = Some (at5 (hdu_data cubeA) 0 0 0 0 3) /\
    get4 (st_vals st) 0 0 0 0 <> Some (at5 (hdu_data cubeA) 0 0 0 0 4).
Proof.
  split; [reflexivity|]. split; [reflexivity|]. split; [reflexivity|].
  split; [reflexivity|]. split; [vm_compute; discriminate|].
  eexists. split; [vm_compute; reflexivity|]. split; [reflexivity|].
  intros H. apply (f_equal (fun o : option float => Prim2SF (default 0%float o))) in H.
  vm_compute in H. discriminate.
Qed.

(** C3, amended: the integers of lines 95 and 96, which feed both the
    test of line 97 and the lookup of line 104, are the fractional pixel
    coordinates with the fraction dropped (truncation toward zero): 3.7
    gives pixel 3 and -0.4 gives pixel 0. *)
Theorem pixel_of_truncates :
  (py_int 3.7 = Return 3 /\ py_int (-0.4) = Return 0) /\
  forall (h : hdu) (ra dec : float) (x y : Z),
    pixel_of h ra dec = Return (x, y) ->
    exists qx qy,
      float_value (wcs_world2pix h ra dec).1 = Some qx /\
      float_value (wcs_world2pix h ra dec).2 = Some qy /\
      truncation_of qx x /\ truncation_of qy y.
Proof.
  split; [by split|].
  intros h ra dec x y. unfold pixel_of.
  destruct (py_int (wcs_world2pix h ra dec).1) as [x'|] eqn:Hx; [simpl|discriminate].
  destruct (py_int (wcs_world2pix h ra dec).2) as [y'|] eqn:Hy; [simpl|discriminate].
  intros [= <- <-].
  apply py_int_truncation in Hx as (qx & Hqx & Htx).
  apply py_int_truncation in Hy as (qy & Hqy & Hty).
  by exists qx, qy.
Qed.

Lemma pixel_of_truncates_witness :
  exists qx qy,
    float_value (wcs_world2pix cubeA (-0.4) 0).1 = Some qx /\
    float_value (wcs_world2pix cubeA (-0.4) 0).2 = Some qy /\
    truncation_of qx 0 /\ truncation_of qy 0.
Proof.
  apply (proj2 pixel_of_truncates cubeA (-0.4)%float 0%float 0 0).
  reflexivity.
Defined.

(** * When the sampling goes through *)
Section sampling_succeeds.
Implicit Types (h : hdu) (a vals weights : ndarray4) (t s d f : nat).

(** A loop whose body keeps an invariant and returns whenever the
    invariant holds runs to its end. *)
Lemma foldM_succeeds {I S : Type} (body : I -> S -> outcome S) (P : S -> Prop)
    (l : list I) (s0 : S) :
  (forall i st, i ∈ l -> P st -> exists st', body i st = Return st' /\ P st') ->
  P s0 ->
  exists st', foldM body l s0 = Return st' /\ P st'.
Proof.
  revert s0. induction l as [|i l IH]; intros s0 Hbody H0.
  - by exists s0.
  - destruct (Hbody i s0) as (s1 & Hs1 & H1); [by left|done|].
    destruct (IH s1) as (s' & Hs' & H'); [|done|].
    + intros j st Hj. apply Hbody. by right.
    + exists s'. split; [|done]. rewrite foldM_cons, Hs1. exact Hs'.
Qed.

Lemma norm_index_in_range n z :
  0 <= z < Z.of_nat n -> norm_index n z = Return (Z.to_nat z).
Proof.
  intros Hz. unfold norm_index.
  destruct (0 <=? z) eqn:H0; [|apply Z.leb_gt in H0; lia].
  destruct (z <? Z.of_nat n) eqn:H1; [done|apply Z.ltb_ge in H1; lia].
Qed.

Lemma getitem5_in_range data t f s y x :
  (t < (shape5 data).1.1.1.1)%nat -> (f < (shape5 data).1.1.1.2)%nat ->
  (s < (shape5 data).1.1.2)%nat ->
  0 <= y < Z.of_nat (shape5 data).1.2 -> 0 <= x < Z.of_nat (shape5 data).2 ->
  getitem5 data t f s y x = Return (at5 data t f s (Z.to_nat y) (Z.to_nat x)).
Proof.
  unfold getitem5. destruct (shape5 data) as [[[[nt nf] ns] ny] nx]; simpl.
  intros Ht Hf Hs Hy Hx.
  rewrite !norm_index_in_range by lia. simpl. by rewrite !Nat2Z.id.
Qed.

Lemma setitem4_in_range a n0 n1 n2 n3 t s d f v :
  shape4 a = (n0, n1, n2, n3) ->
  (t < n0)%nat -> (s < n1)%nat -> (d < n2)%nat -> (f < n3)%nat ->
  exists a', setitem4 a t s d f v = Return a' /\ shape4 a' = (n0, n1, n2, n3).
Proof.
  intros Hsh Ht Hs Hd Hf. unfold setitem4. rewrite Hsh.
  apply Nat.ltb_lt in Ht, Hs, Hd, Hf. rewrite Ht, Hs, Hd, Hf. simpl.
  eexists. split; [done|]. done.
Qed.

Lemma set_dir_slice_in_range a n0 n1 n2 n3 d v :
  shape4 a = (n0, n1, n2, n3) -> (d < n2)%nat ->
  exists a', set_dir_slice a d v = Return a'.
Proof.
  intros Hsh Hd. unfold set_dir_slice. rewrite Hsh.
  apply Nat.ltb_lt in Hd. rewrite Hd. by eexists.
Qed.

(** The copy of one pixel goes through when the pixel is inside the
    image and the direction is inside the array. *)
Lemma copy_pixel_in_range h d y x vals ndirs :
  shape4 vals = (ntimes_of h, nstations_of h, ndirs, nfreqs_of h) ->
  (d < ndirs)%nat -> in_bounds h x y ->
  exists vals', copy_pixel (hdu_data h) d y x vals = Return vals' /\
    shape4 vals' = (ntimes_of h, nstations_of h, ndirs, nfreqs_of h).
Proof.
  intros Hsh Hd [Hx Hy]. unfold copy_pixel, for_range.
  pose proof (shape5_eq h) as Hdata. rewrite Hdata. cbv beta iota zeta.
  set (P := fun a : ndarray4 =>
              shape4 a = (ntimes_of h, nstations_of h, ndirs, nfreqs_of h)).
  destruct (foldM_succeeds
    (fun t vals0 => foldM (fun f vals1 => foldM (fun s vals2 =>
       v ← getitem5 (hdu_data h) t f s y x; setitem4 vals2 t s d f v)
       (seq 0 (nstations_of h)) vals1) (seq 0 (nfreqs_of h)) vals0)
    P (seq 0 (ntimes_of h)) vals) as (vals' & Hrun & Hsh'); [|done|by exists vals'].
  intros t a0 Ht%elem_of_seq H0.
  apply (foldM_succeeds _ P); [|done].
  intros f a1 Hf%elem_of_seq H1.
  apply (foldM_succeeds _ P); [|done].
  intros s a2 Hs%elem_of_seq H2.
  rewrite getitem5_in_range; rewrite ?Hdata; simpl; try lia.
  eapply setitem4_in_range; [exact H2|lia..].
Qed.

(** The loop over the directions goes through when every pixel is
    flagged or inside the image and there are at least as many patch
    names as coordinate pairs. *)
Lemma grid_sample_succeeds h ndirs ras decs :
  Forall (pixel_ok h) (zip ras decs) ->
  (length (zip ras decs) <= ndirs)%nat ->
  exists vals weights, grid_sample h ndirs ras decs = Return (vals, weights).
Proof.
  intros Hok Hlen. unfold grid_sample, enumerate.
  rewrite (shape5_eq h). cbv beta iota zeta.
  unfold np_ones, np_zeros. rewrite shape4_full4.
  set (sh := (ntimes_of h, nstations_of h, ndirs, nfreqs_of h)).
  set (P := fun vw : ndarray4 * ndarray4 => shape4 vw.1 = sh /\ shape4 vw.2 = sh).
  destruct (foldM_succeeds (sample_direction h) P
              (zip (seq 0 (length (zip ras decs))) (zip ras decs))
              (full4 sh 0%float, full4 sh 1%float))
    as ([vals weights] & Hrun & _);
    [|split; apply shape4_full4|by exists vals, weights].
  intros [d [ra dec]] [vals weights] Hin [Hv Hw]; simpl in Hv, Hw.
  assert (d < ndirs)%nat as Hd.
  { apply elem_of_zip_l, elem_of_seq in Hin. lia. }
  apply elem_of_zip_r in Hin.
  destruct (proj1 (Forall_forall _ _) Hok _ Hin) as (x & y & Hpix & Hcase).
  simpl in Hpix. unfold sample_direction.
  pose proof (shape5_eq h) as Hdata. rewrite Hdata. cbv beta iota zeta.
  rewrite Hpix. simpl.
  destruct (out_of_bounds (nx_of h) (ny_of h) x y) eqn:Hoob.
  - destruct (set_dir_slice_in_range vals _ _ _ _ d 1%float Hv Hd) as (v1 & Hv1).
    destruct (set_dir_slice_in_range weights _ _ _ _ d 0%float Hw Hd) as (w1 & Hw1).
    rewrite Hv1; simpl. rewrite Hw1; simpl. eexists. split; [done|].
    split; simpl.
    + by rewrite (set_dir_slice_shape _ _ _ _ Hv1).
    + by rewrite (set_dir_slice_shape _ _ _ _ Hw1).
  - destruct Hcase as [?|Hin']; [congruence|].
    destruct (copy_pixel_in_range h d y x vals ndirs Hv Hd Hin') as (v1 & Hv1 & Hsh1).
    rewrite Hv1. simpl. eexists. split; [done|]. by split.
Qed.

End sampling_succeeds.

(** * Every way a run can end *)
Section run_outcomes.
Implicit Types (obs : observation) (w : world) (h : hdu).



(** The update of the parset: it goes through exactly when the steps
    key is absent or holds a list; otherwise [append] fails after the
    table path has been stored. *)
Lemma update_parset_cases path w :
  (steps_appendable w /\
   update_parset path w = (Return tt, set_parset (parset_after path w) w)) \/
  (~ steps_appendable w /\
   update_parset path w
   = (Raise AttributeError,
      set_parset (<["predict.applycal.parmdb"%string := PStr path]>
                    (parset_parameters w)) w)).
Proof.
  unfold steps_appendable, parset_after, steps_after.
  unfold update_parset, mbind, M_bind, parset_setitem, parset_contains, parset_append,
    set_parset; simpl.
  rewrite lookup_insert_ne by (by apply String.eqb_neq).
  destruct (parset_parameters w !! "predict.applycal.steps"%string) as [v|] eqn:Hl.
  - rewrite bool_decide_eq_true_2 by eauto. simpl.
    rewrite lookup_insert_ne by (by apply String.eqb_neq). rewrite Hl.
    destruct v as [s|b|n|l].
    + right. split; [|done]. intros [?|[l ?]]; congruence.
    + right. split; [|done]. intros [?|[l ?]]; congruence.
    + right. split; [|done]. intros [?|[l ?]]; congruence.
    + left. split; [right; by exists l|]. done.
  - rewrite bool_decide_eq_false_2 by (intros [? ?]; done). simpl.
    left. split; [by left|done].
Qed.

(** The 'fits' branch, run forward. *)
(** With the cube opened, the station counts equal, the sampling done
    and the four header cards read, the 'fits' branch is at line 115. *)
Lemma fits_method_persist obs path name h w vals weights t_ref t_del f_ref f_del :
  files w !! name = Some (FitsFile h) ->
  nstations_of h = length (stations obs) ->
  grid_sample h (length (get_patch_names obs))
    (get_patch_coords obs).1 (get_patch_coords obs).2 = Return (vals, weights) ->
  hdu_header h !! "CRVAL4"%string = Some t_ref ->
  hdu_header h !! "CDELT4"%string = Some t_del ->
  hdu_header h !! "CRVAL3"%string = Some f_ref ->
  hdu_header h !! "CDELT3"%string = Some f_del ->
  fits_method obs path (Some name) w
  = (persist_table obs path (Some name) (get_patch_names obs)
       (get_patch_coords obs).1 (get_patch_coords obs).2
       (linear_axis t_ref t_del (ntimes_of h)) (linear_axis f_ref f_del (nfreqs_of h))
       vals weights;; mret None) w.
Proof.
  intros Hfile Hn Hs Ht Ht' Hf Hf'.
  unfold fits_method.
  destruct (get_patch_coords obs) as [ras decs] eqn:Hcoords. simpl in Hs.
  assert (pyfits_open (Some name) w = (Return h, w)) as Hopen.
  { unfold pyfits_open. by rewrite Hfile. }
  rewrite (M_bind_step _ _ _ _ _ Hopen).
  rewrite (shape5_eq h). cbv beta iota zeta.
  rewrite Hn, Nat.eqb_refl. cbn [negb]. cbv iota.
  unfold lift, header_get. rewrite Hs, Ht, Ht', Hf, Hf'.
  reflexivity.
Qed.

(** From there the table is written when the path can be created and
    both side tables get at least one row. *)
Lemma fits_method_success obs path name h w vals weights t_ref t_del f_ref f_del :
  files w !! name = Some (FitsFile h) ->
  nstations_of h = length (stations obs) ->
  grid_sample h (length (get_patch_names obs))
    (get_patch_coords obs).1 (get_patch_coords obs).2 = Return (vals, weights) ->
  hdu_header h !! "CRVAL4"%string = Some t_ref ->
  hdu_header h !! "CDELT4"%string = Some t_del ->
  hdu_header h !! "CRVAL3"%string = Some f_ref ->
  hdu_header h !! "CDELT3"%string = Some f_del ->
  can_create w path ->
  antenna_rows obs <> [] ->
  source_rows obs <> [] ->
  fits_method obs path (Some name) w
  = (Return None,
     set_files (<[path := H5File (tec_file obs h path name vals weights
                                    t_ref t_del f_ref f_del)]> (files w)) w).
Proof.
  intros Hfile Hn Hs Ht Ht' Hf Hf' Hcan HA HS.
  rewrite (fits_method_persist obs path name h w _ _ _ _ _ _ Hfile Hn Hs Ht Ht' Hf Hf').
  match goal with
  | |- context [persist_table _ _ _ _ _ _ ?ts ?fs _ _] =>
      destruct (persist_table_cases obs path (Some name) (get_patch_names obs)
                  (get_patch_coords obs).1 (get_patch_coords obs).2 ts fs vals weights w)
        as [[Hno _]|[(_ & [HA'|HS'] & _)|(_ & _ & _ & Hper)]]
  end; try done.
  by rewrite (M_bind_step _ _ _ _ _ Hper).
Qed.


End run_outcomes.

Section run_forward.
Implicit Types (obs : observation) (w : world) (h : hdu).

(** With the cube opened, the station counts equal, every pixel
    acceptable, the four header cards present, a path that can be
    created and a row for each side table, the 'fits' branch writes the
    table and hands over to the parset update. *)
Lemma run_fits_forward obs path name h w :
  files w !! name = Some (FitsFile h) ->
  nstations_of h = length (stations obs) ->
  Forall (pixel_ok h) (directions obs) ->
  (length (directions obs) <= length (get_patch_names obs))%nat ->
  Forall (fun k => is_Some (hdu_header h !! k))
    ["CRVAL4"; "CDELT4"; "CRVAL3"; "CDELT3"]%string ->
  can_create w path ->
  antenna_rows obs <> [] ->
  source_rows obs <> [] ->
  exists vals weights t_ref t_del f_ref f_del,
    run obs "fits" path (Some name) w
    = (update_parset path;; mret 0)
        (set_files (<[path := H5File (tec_file obs h path name vals weights
                                        t_ref t_del f_ref f_del)]> (files w)) w).
Proof.
  intros Hfile Hn Hok Hlen Hhdr Hcan HA HS.
  destruct (grid_sample_succeeds h (length (get_patch_names obs))
              (get_patch_coords obs).1 (get_patch_coords obs).2 Hok Hlen)
    as (vals & weights & Hs).
  apply Forall_cons in Hhdr as [[t_ref Ht] Hhdr].
  apply Forall_cons in Hhdr as [[t_del Ht'] Hhdr].
  apply Forall_cons in Hhdr as [[f_ref Hf] Hhdr].
  apply Forall_cons in Hhdr as [[f_del Hf'] _].
  exists vals, weights, t_ref, t_del, f_ref, f_del.
  unfold run. change (String.eqb "fits" "fits") with true. cbv iota.
  by rewrite (M_bind_step _ _ _ _ _
    (fits_method_success obs path name h w _ _ _ _ _ _ Hfile Hn Hs Ht Ht' Hf Hf'
       Hcan HA HS)).
Qed.


End run_forward.

(** X1: a run in 'fits' mode returns status 0 whenever the cube opens,
    its antenna count is the number of stations, it has at least one
    time and one frequency, every direction's pixel is either flagged by
    line 97 or inside the image, there are no more coordinate pairs
    than patch names, the four header cards are present, the output
    path names a file in a directory that is there and is not itself a
    directory, the antenna and the source table each get at least one
    row, and the steps key of the parset is absent or holds a list. *)
Theorem run_fits_succeeds (obs : observation) (path name : string) (h : hdu) (w : world) :
  files w !! name = Some (FitsFile h) ->
  nstations_of h = length (stations obs) ->
  (0 < ntimes_of h)%nat ->
  (0 < nfreqs_of h)%nat ->
  Forall (pixel_ok h) (directions obs) ->
  (length (directions obs) <= length (get_patch_names obs))%nat ->
  Forall (fun k => is_Some (hdu_header h !! k))
    ["CRVAL4"; "CDELT4"; "CRVAL3"; "CDELT3"]%string ->
  can_create w path ->
  antenna_rows obs <> [] ->
  source_rows obs <> [] ->
  steps_appendable w ->
  exists w', run obs "fits" path (Some name) w = (Return 0, w').
Proof.
  intros Hfile Hn _ _ Hok Hlen Hhdr Hcan HA HS Hsteps.
  destruct (run_fits_forward obs path name h w Hfile Hn Hok Hlen Hhdr Hcan HA HS)
    as (vals & weights & t_ref & t_del & f_ref & f_del & ->).
  match goal with |- context [(_ ;; _) ?w1] => set (w1' := w1) end.
  destruct (update_parset_cases path w1') as [[_ Hup]|[Hno _]].
  - rewrite (M_bind_step _ _ _ _ _ Hup). by eexists.
  - destruct Hno. exact Hsteps.
Qed.

Lemma run_fits_succeeds_witness :
  exists w', run obsA "fits" "out.h5" (Some "cube.fits"%string) world_prior
             = (Return 0, w').
Proof.
  apply (run_fits_succeeds obsA "out.h5" "cube.fits" cubeA world_prior).
  - reflexivity.
  - reflexivity.
  - vm_compute. lia.
  - vm_compute. lia.
  - repeat apply Forall_cons_2; [| | |apply Forall_nil_2].
    + exists 1, 0. split; [vm_compute; reflexivity|]. right. vm_compute.
      repeat split; discriminate.
    + exists 10, 0. split; [vm_compute; reflexivity|]. left. reflexivity.
    + exists 3, 0. split; [vm_compute; reflexivity|]. right. vm_compute.
      repeat split; discriminate.
  - vm_compute. lia.
  - repeat apply Forall_cons_2; [| | | |apply Forall_nil_2]; by eexists.
  - split; [reflexivity|]. split; [vm_compute; discriminate|reflexivity].
  - discriminate.
  - discriminate.
  - right. by exists ["beam"%string].
Defined.

(** The two ways the writing itself fails: the directory of the output
    path is missing, and the observation has no patch, so that the
    source table is given no row; the second loses the table of the
    earlier run. *)
Lemma run_fits_missing_directory :
  (run obsA "fits" "nodir/out.h5" (Some "cube.fits"%string) world_prior).1
  = Raise (FileNotFoundError "nodir/out.h5").
Proof. vm_compute. reflexivity. Qed.

Lemma run_fits_no_patch :
  (run obs_none "fits" "out.h5" (Some "cube.fits"%string) world_prior).1
  = Raise ValueError /\
  exists st,
    files (run obs_none "fits" "out.h5" (Some "cube.fits"%string) world_prior).2
      !! "out.h5"%string
    = Some (H5File [("sol000"%string,
                     {| soltabs := [("tec000"%string, st)];
                        antenna := antenna_row <$> antenna_rows obs_none;
                        source := [] |})]) /\
    history st = [].
Proof.
  split; [vm_compute; reflexivity|]. eexists. split; [vm_compute; reflexivity|].
  reflexivity.
Qed.





Section pixel_conversion.

(** [int] returns exactly on the floats that have a value. *)
Lemma py_int_defined (v : float) :
  (exists z, py_int v = Return z) <-> is_Some (float_value v).
Proof.
  unfold py_int, float_value.
  destruct (Prim2SF v) as [s|s| |s m e]; simpl.
  - split; eauto.
  - split; [intros [z Hz]; discriminate Hz|intros [q Hq]; discriminate Hq].
  - split; [intros [z Hz]; discriminate Hz|intros [q Hq]; discriminate Hq].
  - destruct (0 <=? e); split; eauto.
Qed.


End pixel_conversion.



(** X4: when there are more patch names than coordinate pairs, the
    directions past the last pair are never visited by the loop: in the
    table of a successful run their values are all 0.0 and their weights
    all 1. *)
Theorem run_fits_unvisited_directions (obs : observation) (path name : string) (h : hdu)
    (w w' : world) (d : nat) :
  files w !! name = Some (FitsFile h) ->
  run obs "fits" path (Some name) w = (Return 0, w') ->
  (length (directions obs) <= d)%nat ->
  (d < length (get_patch_names obs))%nat ->
  exists st,
    lookup_soltab w' path "sol000" "tec000" = Some st /\
    forall t s f, (t < ntimes_of h)%nat -> (s < nstations_of h)%nat ->
                  (f < nfreqs_of h)%nat ->
      get4 (st_vals st) t s d f = Some 0%float /\
      get4 (st_weights st) t s d f = Some 1%float.
Proof.
  intros Hfile Hrun Hd Hd'.
  apply run_fits_Return in Hrun
    as (name' & h' & vals & weights & t_ref & t_del & f_ref & f_del &
        [= <-] & Hfile' & _ & Hs & _ & _ & _ & _ & Hfiles).
  rewrite Hfile in Hfile'. injection Hfile' as <-.
  eexists. split; [by eapply lookup_soltab_tec_file|]. simpl.
  apply grid_sample_spec in Hs as (_ & Hrest & _).
  intros t s f Ht Hs Hf. by apply Hrest.
Qed.

Lemma run_fits_unvisited_directions_witness :
  exists st,
    lookup_soltab
      (run obs_more_names "fits" "out.h5" (Some "cube.fits"%string) world_prior).2
      "out.h5" "sol000" "tec000" = Some st /\
    forall t s f, (t < ntimes_of cubeA)%nat -> (s < nstations_of cubeA)%nat ->
                  (f < nfreqs_of cubeA)%nat ->
      get4 (st_vals st) t s 2 f = Some 0%float /\
      get4 (st_weights st) t s 2 f = Some 1%float.
Proof.
  apply (run_fits_unvisited_directions obs_more_names "out.h5" "cube.fits" cubeA
           world_prior).
  - reflexivity.
  - apply M_result_eta. vm_compute. reflexivity.
  - vm_compute. lia.
  - vm_compute. lia.
Defined.



Section parset_facts.
Implicit Types (obs : observation) (w : world) (h : hdu).

Lemma not_elem_of_tec_keys (k : string) :
  k ∉ tec_keys ->
  k <> "predict.applycal.parmdb"%string /\ k <> "predict.applycal.steps"%string /\
  k <> "predict.applycal.correction"%string /\
  k <> "predict.applycal.tec.correction"%string.
Proof.
  unfold tec_keys. rewrite !not_elem_of_cons. tauto.
Qed.

(** What the parset holds once the update has gone through. *)
Lemma parset_after_lookup path w :
  parset_after path w !! "predict.applycal.parmdb"%string = Some (PStr path) /\
  parset_after path w !! "predict.applycal.steps"%string = Some (PList (steps_after w)) /\
  parset_after path w !! "predict.applycal.correction"%string = Some (PStr "tec000") /\
  parset_after path w !! "predict.applycal.tec.correction"%string = Some (PStr "tec000") /\
  forall k, k ∉ tec_keys -> parset_after path w !! k = parset_parameters w !! k.
Proof.
  unfold parset_after. repeat split.
  - rewrite !lookup_insert_ne by (by apply String.eqb_neq). apply lookup_insert_eq.
  - rewrite !lookup_insert_ne by (by apply String.eqb_neq). apply lookup_insert_eq.
  - rewrite !lookup_insert_ne by (by apply String.eqb_neq). apply lookup_insert_eq.
  - apply lookup_insert_eq.
  - intros k (? & ? & ? & ?)%not_elem_of_tec_keys.
    by rewrite !lookup_insert_ne by done.
Qed.

(** A run in 'fits' mode that returns status 0 ends with the parset
    update, started from the parset and the log it was given. *)
Lemma run_fits_Return_update obs path fits w w' :
  run obs "fits" path fits w = (Return 0, w') ->
  exists w1, parset_parameters w1 = parset_parameters w /\ logged w1 = logged w /\
    update_parset path w1 = (Return tt, w').
Proof.
  unfold run. change (String.eqb "fits" "fits") with true. cbv iota.
  intros Hrun. apply M_bind_Return in Hrun as (r & w1 & Hfits & Hrun).
  apply fits_method_Return in Hfits as (name & h & -> & Hfile & Hcases).
  destruct Hcases as [(_ & -> & _)|(Hn & -> & Hok)]; [discriminate Hrun|].
  destruct Hok as (vals & weights & t_ref & t_del & f_ref & f_del & _ & _ & _ & _ & _ & ->).
  apply M_bind_Return in Hrun as ([] & w2 & Hup & Hret).
  injection Hret as <-. eexists. split; [|split; [|exact Hup]]; done.
Qed.

End parset_facts.

(** X6: after a run in 'fits' mode that returns status 0 the parset
    holds the output path under the parmdb key, "tec000" under both
    correction keys and the extended list under the steps key; every
    other key is as before, and nothing was logged. *)
Theorem run_fits_parset (obs : observation) (path : string) (fits : option string)
    (w w' : world) :
  run obs "fits" path fits w = (Return 0, w') ->
  parset_parameters w' !! "predict.applycal.parmdb"%string = Some (PStr path) /\
  parset_parameters w' !! "predict.applycal.steps"%string = Some (PList (steps_after w)) /\
  parset_parameters w' !! "predict.applycal.correction"%string = Some (PStr "tec000") /\
  parset_parameters w' !! "predict.applycal.tec.correction"%string
    = Some (PStr "tec000") /\
  (forall k, k ∉ tec_keys -> parset_parameters w' !! k = parset_parameters w !! k) /\
  logged w' = logged w.
Proof.
  intros Hrun. apply run_fits_Return_update in Hrun as (w1 & Hp & Hl & Hup).
  destruct (update_parset_cases path w1) as [[_ Hup']|[_ Hup']];
    rewrite Hup' in Hup; [|discriminate Hup].
  injection Hup as <-. simpl.
  assert (parset_after path w1 = parset_after path w) as ->.
  { unfold parset_after, steps_after. by rewrite Hp. }
  destruct (parset_after_lookup path w) as (H1 & H2 & H3 & H4 & H5).
  done.
Qed.

Lemma run_fits_parset_witness :
  parset_parameters (run obsA "fits" "out.h5" (Some "cube.fits"%string) world_prior).2
    !! "predict.applycal.parmdb"%string = Some (PStr "out.h5") /\
  parset_parameters (run obsA "fits" "out.h5" (Some "cube.fits"%string) world_prior).2
    !! "predict.applycal.steps"%string = Some (PList (steps_after world_prior)) /\
  parset_parameters (run obsA "fits" "out.h5" (Some "cube.fits"%string) world_prior).2
    !! "predict.applycal.correction"%string = Some (PStr "tec000") /\
  parset_parameters (run obsA "fits" "out.h5" (Some "cube.fits"%string) world_prior).2
    !! "predict.applycal.tec.correction"%string = Some (PStr "tec000") /\
  (forall k, k ∉ tec_keys ->
     parset_parameters (run obsA "fits" "out.h5" (Some "cube.fits"%string) world_prior).2
       !! k = parset_parameters world_prior !! k) /\
  logged (run obsA "fits" "out.h5" (Some "cube.fits"%string) world_prior).2
  = logged world_prior.
Proof.
  apply (run_fits_parset obsA "out.h5" (Some "cube.fits"%string) world_prior).
  apply M_result_eta. vm_compute. reflexivity.
Defined.

(** X8: the update accumulates: two updates in a row leave "tec" twice
    at the end of the steps, after the entries that were there, and the
    parmdb key holds the path of the second. *)
Theorem update_parset_twice (path1 path2 : string) (w : world) :
  steps_appendable w ->
  exists w',
    (update_parset path1;; update_parset path2) w = (Return tt, w') /\
    parset_parameters w' !! "predict.applycal.steps"%string
      = Some (PList (steps_after w ++ ["tec"%string])) /\
    parset_parameters w' !! "predict.applycal.parmdb"%string = Some (PStr path2).
Proof.
  intros Hsteps.
  destruct (update_parset_cases path1 w) as [[_ Hup1]|[Hno _]]; [|by destruct Hno].
  rewrite (M_bind_step _ _ _ _ _ Hup1).
  set (w1 := set_parset (parset_after path1 w) w).
  destruct (parset_after_lookup path1 w) as (_ & Hs1 & _).
  destruct (update_parset_cases path2 w1) as [[_ Hup2]|[Hno _]].
  - rewrite Hup2. eexists. split; [done|]. simpl.
    destruct (parset_after_lookup path2 w1) as (Hp2 & Hs2 & _).
    split; [|done]. rewrite Hs2. unfold steps_after at 1. simpl. by rewrite Hs1.
  - destruct Hno. right. eexists. exact Hs1.
Qed.

Lemma update_parset_twice_witness :
  exists w',
    (update_parset "a.h5";; update_parset "b.h5") world_prior = (Return tt, w') /\
    parset_parameters w' !! "predict.applycal.steps"%string
      = Some (PList (steps_after world_prior ++ ["tec"%string])) /\
    parset_parameters w' !! "predict.applycal.parmdb"%string = Some (PStr "b.h5").
Proof.
  apply (update_parset_twice "a.h5" "b.h5" world_prior).
  right. by exists ["beam"%string].
Defined.

(** X9: a fractional pixel coordinate of magnitude below 1 becomes
    pixel 0; a direction up to one pixel before the first column or row
    is therefore taken from the border pixel, not flagged. *)
Theorem py_int_below_one (v : float) (q : Q) :
  float_value v = Some q -> (Qabs q < 1)%Q -> py_int v = Return 0.
Proof.
  intros Hq Hsmall.
  destruct (proj2 (py_int_defined v)) as [z Hz]; [by eexists|].
  destruct (py_int_truncation v z Hz) as (q' & Hq' & Hle & _).
  rewrite Hq in Hq'. injection Hq' as <-.
  assert (inject_Z (Z.abs z) < 1)%Q as Hlt by (eapply Qle_lt_trans; eauto).
  unfold Qlt, inject_Z in Hlt; simpl in Hlt.
  rewrite Hz. f_equal. lia.
Qed.

Lemma py_int_below_one_witness : py_int (-0.4) = Return 0.
Proof.
  apply (py_int_below_one (-0.4)%float (-7205759403792794 # 18014398509481984)).
  - reflexivity.
  - reflexivity.
Defined.

(** Without a FITS file name no method string makes [run] touch a
    file. *)
Lemma run_None_files (obs : observation) (method path : string) (w : world) :
  files (run obs method path None w).2 = files w.
Proof.
  unfold run. destruct (String.eqb method "fits").
  - unfold fits_method. destruct (get_patch_coords obs) as [ras decs]. reflexivity.
  - destruct (String.eqb method "wave").
    + destruct (wave_method_raises obs w) as (e & He & _).
      unfold mbind at 1, M_bind at 1. by rewrite He.
    + unfold mbind at 1, M_bind at 1. unfold mret at 1, M_ret at 1.
      unfold mbind, M_bind.
      destruct (update_parset path w) as [[[]|e] w1] eqn:Hup;
        apply update_parset_files in Hup as [Hf _]; exact Hf.
Qed.

(** X10: called without a FITS file name (the default [None]), [run]
    never creates, replaces or removes a file, whatever the method
    string: 'fits' fails at the opening of the cube, 'wave' fails
    before any output, and every other string only updates the
    parset. *)
Theorem run_without_fits_file (obs : observation) (method path : string) (w : world) :
  files (run obs method path None w).2 = files w /\
  (method = "fits"%string -> run obs method path None w = (Raise ValueError, w)).
Proof.
  split; [apply run_None_files|].
  intros ->. unfold run. change (String.eqb "fits" "fits") with true. cbv iota.
  unfold fits_method. by destruct (get_patch_coords obs) as [ras decs].
Qed.

Lemma run_without_fits_file_witness :
  files (run obsA "fits" "out.h5" None world_prior).2 = files world_prior /\
  run obsA "fits" "out.h5" None world_prior = (Raise ValueError, world_prior).
Proof.
  destruct (run_without_fits_file obsA "fits" "out.h5" world_prior) as [H1 H2].
  split; [exact H1|]. apply H2. reflexivity.
Defined.

(** X11: through its parser entry point the TEC operation never writes
    a table. Line 32 passes the FITS file name where [run] expects the
    method and leaves the FITS file name of [run] unset, so with a
    parser that leaves the files alone the files after the call are the
    files before it. *)
Theorem tec_run_parser_never_writes (obs : observation) (p : parser) (step : string)
    (w : world) :
  keeps_files p ->
  files (TecEntry._run_parser obs p step w).2 = files w.
Proof.
  intros (Hstr & _ & Hspell). unfold TecEntry._run_parser, mbind, M_bind.
  pose proof (Hstr step "method"%string None w) as H0.
  destruct (getstr p step "method" None w) as [[method|e] w0]; simpl in *; [|congruence].
  pose proof (Hstr step "fitsFilename"%string (Some EmptyString) w0) as H1.
  destruct (getstr p step "fitsFilename" (Some EmptyString) w0) as [[f|e] w1];
    simpl in *; [|congruence].
  pose proof (Hstr step "h5parmFilename"%string (Some (f +:+ ".h5parm")) w1) as H2.
  destruct (getstr p step "h5parmFilename" (Some (f +:+ ".h5parm")) w1) as [[hf|e] w2];
    simpl in *; [|congruence].
  pose proof (Hspell step ["fitsFilename"; "h5parmFilename"]%string w2) as H3.
  destruct (checkSpelling p step ["fitsFilename"; "h5parmFilename"]%string w2)
    as [[[]|e] w3]; simpl in *; [|congruence].
  rewrite run_None_files. congruence.
Qed.

Lemma tec_run_parser_never_writes_witness :
  files (TecEntry._run_parser obsA
           (table_parser {[ "method"%string := "fits"%string;
                            "fitsFilename"%string := "cube.fits"%string;
                            "h5parmFilename"%string := "out.h5"%string ]})
           "tec" world0).2
  = files world0.
Proof.
  apply tec_run_parser_never_writes.
  repeat split; intros; simpl.
  - destruct (_ !! _), d; reflexivity.
  - destruct d; reflexivity.
Defined.

Ltac lookup_key :=
  repeat first [rewrite lookup_insert_eq
               |rewrite lookup_insert_ne by (by apply String.eqb_neq)].

Section beam_facts.
Implicit Types (obs : observation) (w : world).

Lemma not_elem_of_beam_keys (k : string) :
  k ∉ Beam.beam_keys ->
  k <> "predict.usebeammodel"%string /\ k <> "predict.beammode"%string /\
  k <> "predict.usechannelfreq"%string /\ k <> "predict.onebeamperpatch"%string.
Proof.
  unfold Beam.beam_keys. rewrite !not_elem_of_cons. tauto.
Qed.

(** Whatever the mode, the beam operation raises nothing, leaves the
    files alone and changes the parset on its own four keys only. *)
Lemma beam_run_frame obs mode u o w :
  exists status w',
    Beam.run obs mode u o w = (Return status, w') /\
    files w' = files w /\
    forall k, k ∉ Beam.beam_keys -> parset_parameters w' !! k = parset_parameters w !! k.
Proof.
  unfold Beam.run. destruct (bool_decide (mode ∈ Beam.beam_modes)); simpl.
  - eexists _, _. split; [reflexivity|]. split; [done|]. simpl.
    intros k (? & ? & ? & ?)%not_elem_of_beam_keys.
    by rewrite !lookup_insert_ne by done.
  - eexists _, _. split; [reflexivity|]. done.
Qed.

End beam_facts.

(** X12: the beam operation rejects a mode that is not 'default',
    'array_factor' or 'element': it returns status 1, logs the mode it
    did not understand, and leaves the parset and the files as they
    were. *)
Theorem beam_run_unknown_mode (obs : observation) (mode : string) (u o : bool) (w : world) :
  mode ∉ Beam.beam_modes ->
  exists w',
    Beam.run obs mode u o w = (Return 1, w') /\
    parset_parameters w' = parset_parameters w /\
    files w' = files w /\
    logged w' = logged w ++ [("ERROR"%string, Beam.not_understood mode)].
Proof.
  intros Hmode. unfold Beam.run. rewrite bool_decide_eq_false_2 by done. simpl.
  eexists. split; [reflexivity|]. done.
Qed.

Lemma beam_run_unknown_mode_witness :
  exists w',
    Beam.run obsA "tid" true false world_prior = (Return 1, w') /\
    parset_parameters w' = parset_parameters world_prior /\
    files w' = files world_prior /\
    logged w' = logged world_prior ++ [("ERROR"%string, Beam.not_understood "tid")].
Proof.
  apply (beam_run_unknown_mode obsA "tid" true false world_prior).
  vm_compute. intros H. repeat (apply elem_of_cons in H as [H|H]; [discriminate H|]).
  by apply elem_of_nil in H.
Defined.

(** X13: with one of the three modes the beam operation returns
    status 0 and stores the beam flag, the mode and the two options
    under its four keys; every other key of the parset (the TEC
    correction entries among them), the files and the log are as
    before. *)
Theorem beam_run_sets_keys (obs : observation) (mode : string) (u o : bool) (w : world) :
  mode ∈ Beam.beam_modes ->
  exists w',
    Beam.run obs mode u o w = (Return 0, w') /\
    parset_parameters w' !! "predict.usebeammodel"%string = Some (PBool true) /\
    parset_parameters w' !! "predict.beammode"%string = Some (PStr mode) /\
    parset_parameters w' !! "predict.usechannelfreq"%string = Some (PBool u) /\
    parset_parameters w' !! "predict.onebeamperpatch"%string = Some (PBool o) /\
    (forall k, k ∉ Beam.beam_keys ->
       parset_parameters w' !! k = parset_parameters w !! k) /\
    files w' = files w /\ logged w' = logged w.
Proof.
  intros Hmode. unfold Beam.run. rewrite bool_decide_eq_true_2 by done. simpl.
  eexists. split; [reflexivity|]. simpl.
  split; [rewrite !lookup_insert_ne by (by apply String.eqb_neq); apply lookup_insert_eq|].
  split; [rewrite !lookup_insert_ne by (by apply String.eqb_neq); apply lookup_insert_eq|].
  split; [rewrite !lookup_insert_ne by (by apply String.eqb_neq); apply lookup_insert_eq|].
  split; [apply lookup_insert_eq|].
  split; [|done].
  intros k (? & ? & ? & ?)%not_elem_of_beam_keys.
  by rewrite !lookup_insert_ne by done.
Qed.

Lemma beam_run_sets_keys_witness :
  exists w',
    Beam.run obsA "element" true false world_prior = (Return 0, w') /\
    parset_parameters w' !! "predict.usebeammodel"%string = Some (PBool true) /\
    parset_parameters w' !! "predict.beammode"%string = Some (PStr "element") /\
    parset_parameters w' !! "predict.usechannelfreq"%string = Some (PBool true) /\
    parset_parameters w' !! "predict.onebeamperpatch"%string = Some (PBool false) /\
    (forall k, k ∉ Beam.beam_keys ->
       parset_parameters w' !! k = parset_parameters world_prior !! k) /\
    files w' = files world_prior /\ logged w' = logged world_prior.
Proof.
  apply (beam_run_sets_keys obsA "element" true false world_prior).
  vm_compute. do 2 right. left.
Defined.

(** X14: the beam operation and the TEC parset update do not disturb
    each other: when the steps key is absent or holds a list, running
    them in either order gives the same parset and the same files. *)
Theorem beam_tec_any_order (obs : observation) (mode path : string) (u o : bool) (w : world) :
  steps_appendable w ->
  parset_parameters ((Beam.run obs mode u o;; update_parset path) w).2
  = parset_parameters ((update_parset path;; Beam.run obs mode u o) w).2 /\
  files ((Beam.run obs mode u o;; update_parset path) w).2
  = files ((update_parset path;; Beam.run obs mode u o) w).2.
Proof.
  intros Hsteps.
  destruct (update_parset_cases path w) as [[_ Hup]|[Hno _]]; [|by destruct Hno].
  rewrite (M_bind_step _ _ _ _ _ Hup).
  destruct (beam_run_frame obs mode u o w) as (s1 & w1 & Hb1 & Hf1 & Hk1).
  rewrite (M_bind_step _ _ _ _ _ Hb1).
  assert (parset_parameters w1 !! "predict.applycal.steps"%string
          = parset_parameters w !! "predict.applycal.steps"%string) as Hst.
  { apply Hk1. unfold Beam.beam_keys. rewrite !not_elem_of_cons.
    repeat split; try (by apply String.eqb_neq). apply not_elem_of_nil. }
  destruct (update_parset_cases path w1) as [[_ Hup1]|[Hno _]].
  2:{ destruct Hno. unfold steps_appendable in *. by rewrite Hst. }
  rewrite Hup1. simpl.
  unfold Beam.run in *. destruct (bool_decide (mode ∈ Beam.beam_modes)); simpl in *.
  - injection Hb1 as <- <-. simpl. split; [|done].
    unfold parset_after, steps_after. simpl.
    rewrite !lookup_insert_ne by (by apply String.eqb_neq).
    apply map_eq. intros k.
    destruct (decide (k = "predict.usebeammodel"%string)) as [->|];
      [by lookup_key|].
    destruct (decide (k = "predict.beammode"%string)) as [->|];
      [by lookup_key|].
    destruct (decide (k = "predict.usechannelfreq"%string)) as [->|];
      [by lookup_key|].
    destruct (decide (k = "predict.onebeamperpatch"%string)) as [->|];
      [by lookup_key|].
    destruct (decide (k = "predict.applycal.parmdb"%string)) as [->|];
      [by lookup_key|].
    destruct (decide (k = "predict.applycal.steps"%string)) as [->|];
      [by lookup_key|].
    destruct (decide (k = "predict.applycal.correction"%string)) as [->|];
      [by lookup_key|].
    destruct (decide (k = "predict.applycal.tec.correction"%string)) as [->|];
      [by lookup_key|].
    by rewrite !lookup_insert_ne by done.
  - injection Hb1 as <- <-. simpl. done.
Qed.

Lemma beam_tec_any_order_witness :
  parset_parameters
    ((Beam.run obsA "element" true false;; update_parset "out.h5") world_prior).2
  = parset_parameters
      ((update_parset "out.h5";; Beam.run obsA "element" true false) world_prior).2 /\
  files ((Beam.run obsA "element" true false;; update_parset "out.h5") world_prior).2
  = files ((update_parset "out.h5";; Beam.run obsA "element" true false) world_prior).2.
Proof.
  apply (beam_tec_any_order obsA "element" "out.h5" true false world_prior).
  right. by exists ["beam"%string].
Defined.

(** X15: through its parser entry point the beam operation, whatever
    the options it reads, changes the parset on its own four keys only,
    as long as the parser leaves the parset alone. *)
Theorem beam_run_parser_frame (obs : observation) (p : parser) (step : string) (w : world)
    (k : string) :
  keeps_parset p ->
  k ∉ Beam.beam_keys ->
  parset_parameters (Beam._run_parser obs p step w).2 !! k = parset_parameters w !! k.
Proof.
  intros (Hstr & Hbool & Hspell) Hk. unfold Beam._run_parser, mbind, M_bind.
  pose proof (Hstr step "mode"%string (Some "default"%string) w) as H0.
  destruct (getstr p step "mode" (Some "default"%string) w) as [[mode|e] w0];
    simpl in *; [|by rewrite H0].
  pose proof (Hbool step "usechannelfreq"%string (Some true) w0) as H1.
  destruct (getbool p step "usechannelfreq" (Some true) w0) as [[u|e] w1];
    simpl in *; [|by rewrite H1, H0].
  pose proof (Hbool step "onebeamperpatch"%string (Some false) w1) as H2.
  destruct (getbool p step "onebeamperpatch" (Some false) w1) as [[o|e] w2];
    simpl in *; [|by rewrite H2, H1, H0].
  pose proof (Hspell step ["mode"; "usechannelfreq"; "onebeamperpatch"]%string w2) as H3.
  destruct (checkSpelling p step ["mode"; "usechannelfreq"; "onebeamperpatch"]%string w2)
    as [[[]|e] w3]; simpl in *; [|by rewrite H3, H2, H1, H0].
  destruct (beam_run_frame obs mode u o w3) as (s1 & w4 & -> & _ & Hframe). simpl.
  rewrite (Hframe k Hk). by rewrite H3, H2, H1, H0.
Qed.

Lemma beam_run_parser_frame_witness :
  parset_parameters
    (Beam._run_parser obsA (table_parser {[ "mode"%string := "element"%string ]})
       "beam" world_prior).2 !! "predict.applycal.steps"%string
  = parset_parameters world_prior !! "predict.applycal.steps"%string.
Proof.
  apply beam_run_parser_frame.
  - repeat split; intros; simpl.
    + destruct (_ !! _), d; reflexivity.
    + destruct d; reflexivity.
  - vm_compute. intros H. repeat (apply elem_of_cons in H as [H|H]; [discriminate H|]).
    by apply elem_of_nil in H.
Defined.

(** X16: what the parser entry point of the TEC operation does with an
    ordinary configuration. When the parser yields a FITS file name
    other than the words 'fits' and 'wave', and the steps key is absent
    or holds a list, the call returns status 0 without having opened
    the cube or written a table, and the parset points at the h5parm
    file name all the same. *)
Theorem tec_run_parser_reports_success (obs : observation) (p : parser) (step : string)
    (w w0 w1 w2 w3 : world) (m f hf : string) :
  getstr p step "method" None w = (Return m, w0) ->
  getstr p step "fitsFilename" (Some EmptyString) w0 = (Return f, w1) ->
  getstr p step "h5parmFilename" (Some (f +:+ ".h5parm")) w1 = (Return hf, w2) ->
  checkSpelling p step ["fitsFilename"; "h5parmFilename"]%string w2 = (Return tt, w3) ->
  f <> "fits"%string -> f <> "wave"%string ->
  steps_appendable w3 ->
  exists w',
    TecEntry._run_parser obs p step w = (Return 0, w') /\
    files w' = files w3 /\ logged w' = logged w3 /\
    parset_parameters w' !! "predict.applycal.parmdb"%string = Some (PStr hf) /\
    parset_parameters w' !! "predict.applycal.steps"%string
      = Some (PList (steps_after w3)).
Proof.
  intros H0 H1 H2 H3 Hf Hw Hsteps. unfold TecEntry._run_parser.
  rewrite (M_bind_step _ _ _ _ _ H0), (M_bind_step _ _ _ _ _ H1),
    (M_bind_step _ _ _ _ _ H2), (M_bind_step _ _ _ _ _ H3).
  rewrite run_other_method by done.
  destruct (update_parset_cases hf w3) as [[_ Hup]|[Hno _]]; [|by destruct Hno].
  rewrite (M_bind_step _ _ _ _ _ Hup). eexists. split; [reflexivity|]. simpl.
  destruct (parset_after_lookup hf w3) as (Hp & Hs & _). done.
Qed.

Lemma tec_run_parser_reports_success_witness :
  exists w',
    TecEntry._run_parser obsA
      (table_parser {[ "method"%string := "fits"%string;
                       "fitsFilename"%string := "cube.fits"%string ]})
      "tec" world_prior = (Return 0, w') /\
    files w' = files world_prior /\ logged w' = logged world_prior /\
    parset_parameters w' !! "predict.applycal.parmdb"%string
      = Some (PStr "cube.fits.h5parm") /\
    parset_parameters w' !! "predict.applycal.steps"%string
      = Some (PList (steps_after world_prior)).
Proof.
  apply (tec_run_parser_reports_success obsA _ "tec" world_prior world_prior world_prior
           world_prior world_prior "fits" "cube.fits" "cube.fits.h5parm").
  - reflexivity.
  - reflexivity.
  - reflexivity.
  - reflexivity.
  - discriminate.
  - discriminate.
  - right. by exists ["beam"%string].
Defined.

(** X17: for every method string other than 'fits' and 'wave', with
    the steps key absent or holding a list, [run] returns status 0,
    touches no file, logs nothing, and updates the parset exactly as
    after a successful run. *)
Theorem run_unknown_method (obs : observation) (method path : string)
    (fits : option string) (w : world) :
  method <> "fits"%string -> method <> "wave"%string ->
  steps_appendable w ->
  exists w',
    run obs method path fits w = (Return 0, w') /\
    files w' = files w /\ logged w' = logged w /\
    parset_parameters w' = parset_after path w.
Proof.
  intros Hf Hw Hsteps. rewrite run_other_method by done.
  destruct (update_parset_cases path w) as [[_ Hup]|[Hno _]]; [|by destruct Hno].
  rewrite (M_bind_step _ _ _ _ _ Hup). eexists. split; [reflexivity|]. done.
Qed.

Lemma run_unknown_method_witness :
  exists w',
    run obsA "cube.fits" "out.h5" (Some "cube.fits"%string) world_prior = (Return 0, w') /\
    files w' = files world_prior /\ logged w' = logged world_prior /\
    parset_parameters w' = parset_after "out.h5" world_prior.
Proof.
  apply (run_unknown_method obsA "cube.fits" "out.h5" (Some "cube.fits"%string)
           world_prior).
  - discriminate.
  - discriminate.
  - right. by exists ["beam"%string].
Defined.
